(** * lambdarequesttransformer: the request-to-invocation-event middleware

    A shallow embedding of [lambdarequesttransformer.go] and the proofs of
    its specification.  Go strings are byte strings ([string]); [int] and
    [int64] values are [Z]; [http.Header] and the Go maps of the event are
    finite maps ([gmap]); the effects of [ServeHTTP] (writes to the
    [http.ResponseWriter], the call of the next handler) are recorded as a
    trace. *)

From Stdlib Require Import ZArith Ascii String Lia.
From Stdlib.Strings Require Import Byte.
From stdpp Require Import gmap strings list fin_maps pretty sorting.

Set Warnings "-register-all".
Open Scope string_scope.
Open Scope Z_scope.

(** ** Package [strings] *)

(** [s[:n]] and [s[n:]] on byte strings, for [0 <= n <= len(s)]. *)
Definition slice_to (s : string) (n : Z) : string :=
  String.substring 0 (Z.to_nat n) s.

Fixpoint string_drop (n : nat) (s : string) : string :=
  match n, s with
  | O, _ => s
  | S _, EmptyString => EmptyString
  | S n', String _ s' => string_drop n' s'
  end.

Definition slice_from (s : string) (n : Z) : string :=
  string_drop (Z.to_nat n) s.

Definition len (s : string) : Z := Z.of_nat (String.length s).

(** [strings.Index(s, substr)]: the index of the first instance of
    [substr] in [s], or -1. *)
Fixpoint strings_Index (s substr : string) : Z :=
  if String.prefix substr s then 0
  else match s with
       | EmptyString => -1
       | String _ s' =>
           let i := strings_Index s' substr in
           if i =? -1 then -1 else i + 1
       end.

(** [strings.Join(elems, sep)]. *)
Fixpoint strings_Join (elems : list string) (sep : string) : string :=
  match elems with
  | [] => ""
  | [e] => e
  | e :: rest => e ++ sep ++ strings_Join rest sep
  end.

(** The loop of [genSplit(s, sep, 0, -1)] for a non-empty [sep]: cut at
    each instance of [sep] until [Index] finds none.  Go bounds the loop
    by [n - 1] with [n] capped at [len(s) + 1]; [fuel] is that bound. *)
Fixpoint genSplit (fuel : nat) (s sep : string) : list string :=
  match fuel with
  | O => [s]
  | S fuel' =>
      let m := strings_Index s sep in
      if m <? 0 then [s]
      else slice_to s m :: genSplit fuel' (slice_from s (m + len sep)) sep
  end.

(** [strings.Split(s, sep)] for a non-empty separator, the only kind the
    middleware passes. *)
Definition strings_Split (s sep : string) : list string :=
  genSplit (String.length s) s sep.

(** ** Package [fmt] *)

(** [fmt.Sprintf("%d", n)]. *)
Definition Sprintf_d (n : Z) : string := pretty n.

(** [fmt.Sprintf("%s %s", a, b)]. *)
Definition Sprintf_s_s (a b : string) : string := a ++ " " ++ b.

Definition hexdigits : string := "0123456789abcdef".

Definition hexdigit (n : Z) : ascii :=
  match String.get (Z.to_nat n) hexdigits with
  | Some c => c
  | None => "?"%char
  end.

(** The verb [%x] on a byte slice: two lower-case digits per byte,
    [digits[c>>4]] then [digits[c&0xF]]. *)
Fixpoint fmtSbx (bs : list Z) : string :=
  match bs with
  | [] => ""
  | c :: rest =>
      String (hexdigit (Z.shiftr c 4)) (String (hexdigit (Z.land c 15)) (fmtSbx rest))
  end.

Fixpoint zeros (n : nat) : string :=
  match n with
  | O => ""
  | S n' => String "0"%char (zeros n')
  end.

(** Left padding with zeros up to [width], the flag [0] of a verb. *)
Definition pad0 (width : nat) (s : string) : string :=
  zeros (width - String.length s) ++ s.

(** [%0Wx] applied to a byte slice. *)
Definition Sprintf_0x (width : nat) (bs : list Z) : string :=
  pad0 width (fmtSbx bs).

(** ** Package [net/textproto] and [http.Header] *)

Definition byte_between (lo hi c : ascii) : bool :=
  (N_of_ascii lo <=? N_of_ascii c)%N && (N_of_ascii c <=? N_of_ascii hi)%N.

Definition is_lower (c : ascii) : bool := byte_between "a" "z" c.
Definition is_upper (c : ascii) : bool := byte_between "A" "Z" c.
Definition is_digit (c : ascii) : bool := byte_between "0" "9" c.

(** The token bytes of RFC 7230, [validHeaderFieldByte]. *)
Definition validHeaderFieldByte (c : ascii) : bool :=
  is_lower c || is_upper c || is_digit c
  || existsb (Ascii.eqb c)
       ["!"; "#"; "$"; "%"; "&"; "'"; "*"; "+"; "-"; "."; "^"; "_"; "`"; "|"; "~"]%char.

Fixpoint all_bytes (p : ascii -> bool) (s : string) : bool :=
  match s with
  | EmptyString => true
  | String c s' => p c && all_bytes p s'
  end.

Definition toLower : N := 32.

(** The second loop of [canonicalMIMEHeaderKey]: upper case for the first
    letter and after each dash, lower case elsewhere. *)
Fixpoint canonicalize (upper : bool) (s : string) : string :=
  match s with
  | EmptyString => EmptyString
  | String c s' =>
      let c' :=
        if upper && is_lower c then ascii_of_N (N_of_ascii c - toLower)
        else if negb upper && is_upper c then ascii_of_N (N_of_ascii c + toLower)
        else c in
      String c' (canonicalize (Ascii.eqb c' "-") s')
  end.

(** [textproto.CanonicalMIMEHeaderKey]: a key with a byte that is not a
    token byte is returned unchanged. *)
Definition CanonicalMIMEHeaderKey (s : string) : string :=
  if all_bytes validHeaderFieldByte s then canonicalize true s else s.

(** [http.Header] is [map[string][]string]. *)
Abbreviation http_Header := (gmap string (list string)).

(** [h.Get(key)]: the first value under the canonical key, or [""]. *)
Definition Header_Get (h : http_Header) (key : string) : string :=
  match h !! CanonicalMIMEHeaderKey key with
  | Some (v :: _) => v
  | _ => ""
  end.

(** [h.Set(key, value)]: the canonical key now holds the single value. *)
Definition Header_Set (h : http_Header) (key value : string) : http_Header :=
  <[CanonicalMIMEHeaderKey key := [value]]> h.

(** Lines 47-50: every entry of the header is copied, its values joined
    by a comma.  The iteration order of [range] is unspecified; the fold
    follows the order of the map and the result does not depend on it. *)
Definition headersMap_of (hdr : http_Header) : gmap string string :=
  map_fold (fun h values headersMap => <[h := strings_Join values ","]> headersMap)
    ∅ hdr.

(** ** Lines 61-66: the identity source *)

Definition identitySrc_of (hdr : http_Header) : list string :=
  let sessionID := Header_Get hdr "x-session-id" in
  let identitySrc := [] in
  if negb (String.eqb sessionID "") then identitySrc ++ [sessionID]
  else identitySrc.

(** ** Lines 68-79: the host split into domain name and prefix *)

Definition domainName_of (origHost : string) : string :=
  let domainName := origHost in
  let colonIdx := strings_Index origHost ":" in
  if negb (colonIdx =? -1) then slice_to origHost colonIdx
  else domainName.

Definition domainPrefix_of (domainName : string) : string :=
  let parts := strings_Split domainName "." in
  if Z.of_nat (length parts) >? 1 then nth 0 parts "" else domainName.

(** The specification's wording of the split: [cut_at c s] is [s] with
    everything from the first byte [c] onward removed, and the whole of
    [s] when [c] does not occur. *)
Fixpoint cut_at (c : ascii) (s : string) : string :=
  match s with
  | EmptyString => EmptyString
  | String a s' => if Ascii.eqb a c then EmptyString else String a (cut_at c s')
  end.

Fixpoint contains (c : ascii) (s : string) : bool :=
  match s with
  | EmptyString => false
  | String a s' => Ascii.eqb a c || contains c s'
  end.

(** ** [generateUUID] *)

Definition Z_of_byte (b : byte) : Z := Z.of_N (Byte.to_N b).

(** [byte(x)]: the conversion of an integer to [uint8]. *)
Definition to_uint8 (x : Z) : Z := x mod 256.

(** [rand.Read(b)] on a buffer of 16 bytes: [entropy] is what the secure
    source delivers; the read fails when it delivers fewer bytes. *)
Definition rand_Read (entropy : list byte) : option (list Z) :=
  if (16 <=? length entropy)%nat then Some (Z_of_byte <$> take 16 entropy)
  else None.

(** The fallback loop, lines 149-151: [b[i] = byte(t >> (i * 8))] for [i]
    from 0 to 15, on the [int64] [t]. *)
Definition fallback_bytes (t : Z) : list Z :=
  (fun i : nat => to_uint8 (Z.shiftr t (Z.of_nat i * 8))) <$> seq 0 16.

(** The sixteen bytes after lines 144-155. *)
Definition uuid_bytes (entropy : list byte) (t : Z) : list Z :=
  let b := match rand_Read entropy with
           | Some b => b
           | None => fallback_bytes t
           end in
  let b := <[6%nat := Z.lor (Z.land (b !!! 6%nat) 0x0F) 0x40]> b in
  let b := <[8%nat := Z.lor (Z.land (b !!! 8%nat) 0x3F) 0x80]> b in
  b.

(** [b[i:j]]. *)
Definition subslice (i j : nat) (b : list Z) : list Z := take (j - i) (drop i b).

Definition generateUUID (entropy : list byte) (t : Z) : string :=
  let b := uuid_bytes entropy t in
  Sprintf_0x 8 (subslice 0 4 b) ++ "-" ++
  Sprintf_0x 4 (subslice 4 6 b) ++ "-" ++
  Sprintf_0x 4 (subslice 6 8 b) ++ "-" ++
  Sprintf_0x 4 (subslice 8 10 b) ++ "-" ++
  Sprintf_0x 12 (subslice 10 16 b).

(** The canonical textual layout: 36 bytes, hyphens at offsets 8, 13, 18
    and 23, lower-case hexadecimal digits elsewhere. *)
Definition is_hex (c : ascii) : bool := is_digit c || byte_between "a" "f" c.

Fixpoint layout_from (i : nat) (s : string) : bool :=
  match s with
  | EmptyString => true
  | String c s' =>
      (if bool_decide (i ∈ [8; 13; 18; 23]%nat) then Ascii.eqb c "-" else is_hex c)
      && layout_from (S i) s'
  end.

Definition canonical_uuid (s : string) : bool :=
  (String.length s =? 36)%nat && layout_from 0 s.


(** ** Package [time] *)

(** An instant: seconds since the Unix epoch and nanoseconds within the
    second, [0 <= nsec < 1e9]. *)
Record Time := mkTime { unixSec : Z; nsec : Z }.

(** Conversion to [int64]: two's-complement wrap-around. *)
Definition to_int64 (x : Z) : Z := (x + 2 ^ 63) mod 2 ^ 64 - 2 ^ 63.

(** [t.UnixNano()]. *)
Definition Time_UnixNano (t : Time) : Z :=
  to_int64 (unixSec t * 1000000000 + nsec t).

(** Year, month and day of a count of days since 1970-01-01 in the
    proleptic Gregorian calendar, what [t.Date()] returns in UTC. *)
Definition civil_from_days (z : Z) : Z * Z * Z :=
  let z := z + 719468 in
  let era := z / 146097 in
  let doe := z mod 146097 in
  let yoe := (doe - doe / 1460 + doe / 36524 - doe / 146096) / 365 in
  let doy := doe - (365 * yoe + yoe / 4 - yoe / 100) in
  let mp := (5 * doy + 2) / 153 in
  let d := doy - (153 * mp + 2) / 5 + 1 in
  let m := if mp <? 10 then mp + 3 else mp - 9 in
  let y := yoe + era * 400 in
  (if m <=? 2 then y + 1 else y, m, d).

Definition digit_char (n : Z) : ascii := ascii_of_N (48 + Z.to_N n).

(** The [width] low decimal digits of [u], most significant first. *)
Fixpoint dec_digits (width : nat) (u : Z) : string :=
  match width with
  | O => ""
  | S w => dec_digits w (u / 10) ++ String (digit_char (u mod 10)) ""
  end.

(** [appendInt(b, x, width)]: the decimal form of [x], padded with zeros
    on the left up to [width] digits, after the sign. *)
Definition appendInt (x : Z) (width : nat) : string :=
  let u := Z.abs x in
  (if x <? 0 then "-" else "")
  ++ (if u <? 10 ^ Z.of_nat width then dec_digits width u else pretty u).

(** [t.UTC().Format(time.RFC3339)]: layout [2006-01-02T15:04:05Z07:00],
    whose zone is the designator [Z] at offset zero. *)
Definition Format_RFC3339 (t : Time) : string :=
  let days := unixSec t / 86400 in
  let rem := unixSec t mod 86400 in
  let '(year, month, day) := civil_from_days days in
  appendInt year 4 ++ "-" ++ appendInt month 2 ++ "-" ++ appendInt day 2
  ++ "T" ++ appendInt (rem / 3600) 2 ++ ":" ++ appendInt (rem mod 3600 / 60) 2
  ++ ":" ++ appendInt (rem mod 60) 2 ++ "Z".

(** *** Reading a timestamp back

    The Unix second a string [YYYY-MM-DDThh:mm:ssZ] denotes; used to state
    what the [time] field encodes. *)
Definition days_from_civil (y m d : Z) : Z :=
  let y := if m <=? 2 then y - 1 else y in
  let era := y / 400 in
  let yoe := y mod 400 in
  let mp := if m >? 2 then m - 3 else m + 9 in
  let doy := (153 * mp + 2) / 5 + d - 1 in
  let doe := yoe * 365 + yoe / 4 - yoe / 100 + doy in
  era * 146097 + doe - 719468.

Definition digit_val (c : ascii) : Z := Z.of_N (N_of_ascii c) - 48.

Fixpoint read_digits (acc : Z) (cs : list ascii) : Z :=
  match cs with
  | [] => acc
  | c :: cs' => read_digits (10 * acc + digit_val c) cs'
  end.

Definition rfc3339_unix (s : string) : option Z :=
  match list_ascii_of_string s with
  | [y1; y2; y3; y4; a; m1; m2; b; d1; d2; t; h1; h2; c; n1; n2; d; s1; s2; z] =>
      if forallb is_digit [y1; y2; y3; y4; m1; m2; d1; d2; h1; h2; n1; n2; s1; s2]
         && Ascii.eqb a "-" && Ascii.eqb b "-" && Ascii.eqb t "T"
         && Ascii.eqb c ":" && Ascii.eqb d ":" && Ascii.eqb z "Z"
      then Some (days_from_civil (read_digits 0 [y1; y2; y3; y4])
                   (read_digits 0 [m1; m2]) (read_digits 0 [d1; d2]) * 86400
                 + read_digits 0 [h1; h2] * 3600 + read_digits 0 [n1; n2] * 60
                 + read_digits 0 [s1; s2])
      else None
  | _ => None
  end.

(** ** The event document and the request *)

(** The Go values the event holds: [string], [int64], [bool], [[]string],
    [map[string]string] and [map[string]interface{}]. *)
Inductive value :=
| VString (s : string)
| VInt (n : Z)
| VBool (b : bool)
| VStrings (l : list string)
| VStringMap (m : gmap string string)
| VMap (m : gmap string value).

(** The value under a path of keys of nested [map[string]interface{}]. *)
Fixpoint field (path : list string) (v : value) : option value :=
  match path with
  | [] => Some v
  | k :: path' =>
      match v with
      | VMap m => match m !! k with
                  | Some v' => field path' v'
                  | None => None
                  end
      | _ => None
      end
  end.

Record URL := mkURL { Path : string; RawQuery : string }.

(** The fields of [http.Request] the middleware reads or writes, and
    [Body] as the bytes the body stream yields. *)
Record Request := mkRequest {
  Method : string;
  Url : URL;
  Proto : string;
  Header : http_Header;
  Body : string;
  ContentLength : Z;
  TransferEncoding : list string;
  Host : string;
  RemoteAddr : string;
  RequestURI : string
}.

Definition set_Body (v : string) (r : Request) : Request :=
  mkRequest (Method r) (Url r) (Proto r) (Header r) v (ContentLength r)
    (TransferEncoding r) (Host r) (RemoteAddr r) (RequestURI r).

Definition set_ContentLength (v : Z) (r : Request) : Request :=
  mkRequest (Method r) (Url r) (Proto r) (Header r) (Body r) v
    (TransferEncoding r) (Host r) (RemoteAddr r) (RequestURI r).

Definition set_Header (v : http_Header) (r : Request) : Request :=
  mkRequest (Method r) (Url r) (Proto r) v (Body r) (ContentLength r)
    (TransferEncoding r) (Host r) (RemoteAddr r) (RequestURI r).

Definition set_Method (v : string) (r : Request) : Request :=
  mkRequest v (Url r) (Proto r) (Header r) (Body r) (ContentLength r)
    (TransferEncoding r) (Host r) (RemoteAddr r) (RequestURI r).

Definition set_TransferEncoding (v : list string) (r : Request) : Request :=
  mkRequest (Method r) (Url r) (Proto r) (Header r) (Body r) (ContentLength r)
    v (Host r) (RemoteAddr r) (RequestURI r).

Definition set_RequestURI (v : string) (r : Request) : Request :=
  mkRequest (Method r) (Url r) (Proto r) (Header r) (Body r) (ContentLength r)
    (TransferEncoding r) (Host r) (RemoteAddr r) v.

(** What [ServeHTTP] does to the outside: calls on the response writer
    and the call of the next handler with the request as it then is. *)
Inductive effect :=
| rw_Header_Set (key val : string)
| rw_WriteHeader (code : Z)
| rw_Write (data : string)
| next_ServeHTTP (req : Request).

Definition http_StatusInternalServerError : Z := 500.
Definition http_MethodPost : string := "POST".

Definition newline : string := String (ascii_of_N 10) "".

(** [http.Error(w, error, code)]: plain-text content type, the status
    line, then the message and a newline ([fmt.Fprintln]). *)
Definition http_Error (error : string) (code : Z) : list effect :=
  [ rw_Header_Set "Content-Type" "text/plain; charset=utf-8";
    rw_Header_Set "X-Content-Type-Options" "nosniff";
    rw_WriteHeader code;
    rw_Write (error ++ newline) ].

(** What a call of [ServeHTTP] takes from outside the request: the bytes
    of the secure random source, the clock reading of the fallback of
    [generateUUID] (line 148, an [int64] of nanoseconds) and the clock
    reading of line 85. *)
Record Env := mkEnv {
  entropy : list byte;
  fallbackNano : Z;
  now : Time
}.

Section Middleware.

(** [json.Marshal]: the bytes of the document, or the message of the
    error. *)
Variable json_Marshal : value -> string + string.

(** [net.SplitHostPort]: host and port, or [None] for an error. *)
Variable net_SplitHostPort : string -> option (string * string).

(** Lines 52-58. *)
Definition clientIP_of (remoteAddr : string) : string :=
  match net_SplitHostPort remoteAddr with
  | Some (ip, _) => ip
  | None => remoteAddr
  end.

(** Lines 41-118: the event, built from the request as it arrived. *)
Definition build_event (env : Env) (req : Request) : value :=
  let origMethod := Method req in
  let origPath := Path (Url req) in
  let origQuery := RawQuery (Url req) in
  let origHost := Host req in
  let headersMap := headersMap_of (Header req) in
  let clientIP := clientIP_of (RemoteAddr req) in
  let userAgent := Header_Get (Header req) "User-Agent" in
  let identitySrc := identitySrc_of (Header req) in
  let domainName := domainName_of origHost in
  let domainPrefix := domainPrefix_of domainName in
  let requestID := generateUUID (entropy env) (fallbackNano env) in
  let now := now env in
  let timeStr := Format_RFC3339 now in
  let timeEpoch := Z.quot (Time_UnixNano now) 1000000 in
  VMap (list_to_map [
    ("version", VString "2.0");
    ("type", VString "REQUEST");
    ("routeKey", VString (Sprintf_s_s origMethod origPath));
    ("rawPath", VString origPath);
    ("rawQueryString", VString origQuery);
    ("headers", VStringMap headersMap);
    ("requestContext", VMap (list_to_map [
      ("accountId", VString "local");
      ("apiId", VString "local");
      ("domainName", VString domainName);
      ("domainPrefix", VString domainPrefix);
      ("http", VMap (list_to_map [
        ("method", VString origMethod);
        ("path", VString origPath);
        ("protocol", VString (Proto req));
        ("sourceIp", VString clientIP);
        ("userAgent", VString userAgent)]));
      ("requestId", VString requestID);
      ("routeKey", VString (Sprintf_s_s origMethod origPath));
      ("stage", VString "local");
      ("time", VString timeStr);
      ("timeEpoch", VInt timeEpoch)]));
    ("body", VString "");
    ("isBase64Encoded", VBool false);
    ("identitySource", VStrings identitySrc)]).

(** Lines 127-136: the request rewritten around the serialized event. *)
Definition rewrite_request (jsonData : string) (req : Request) : Request :=
  let req := set_Body jsonData req in
  let req := set_ContentLength (len jsonData) req in
  let req := set_Header (Header_Set (Header req) "Content-Type" "application/json") req in
  let req := set_Header (Header_Set (Header req) "Content-Length" (Sprintf_d (len jsonData))) req in
  let req := set_Method http_MethodPost req in
  let req := set_TransferEncoding [] req in
  let req := set_RequestURI "/2015-03-31/functions/function/invocations" req in
  req.

(** [ServeHTTP(rw, req)]: the request as the call leaves it, and the
    effects in the order they happen. *)
Definition ServeHTTP (env : Env) (req : Request) : Request * list effect :=
  let event := build_event env req in
  match json_Marshal event with
  | inr err =>
      (req, http_Error ("JSON marshal error: " ++ err) http_StatusInternalServerError)
  | inl jsonData =>
      let req := rewrite_request jsonData req in
      (req, [next_ServeHTTP req])
  end.

End Middleware.

(** ** Instances of the two library functions

    The theorems below hold for every [json_Marshal] and
    [net_SplitHostPort].  The two functions of this section follow the Go
    library closely enough to run the middleware on concrete requests:
    [go_Marshal] is the compact encoding of [encoding/json] (object keys
    in byte order, the escapes of [appendString] with HTML escaping) for
    strings that are valid UTF-8 without U+2028 and U+2029, and
    [go_SplitHostPort] is [net.SplitHostPort]. *)

Definition quote : string := String (ascii_of_N 34) EmptyString.
Definition backslash : ascii := ascii_of_N 92.

Definition escape_byte (c : ascii) : string :=
  let n := N_of_ascii c in
  if (n =? 34)%N || (n =? 92)%N then String backslash (String c EmptyString)
  else if (n =? 8)%N then String backslash "b"
  else if (n =? 12)%N then String backslash "f"
  else if (n =? 10)%N then String backslash "n"
  else if (n =? 13)%N then String backslash "r"
  else if (n =? 9)%N then String backslash "t"
  else if (n <? 32)%N || existsb (Ascii.eqb c) ["<"; ">"; "&"]%char
       then String backslash "u00" ++ fmtSbx [Z.of_N n]
  else String c EmptyString.

Fixpoint escape (s : string) : string :=
  match s with
  | EmptyString => EmptyString
  | String c s' => escape_byte c ++ escape s'
  end.

Definition encode_string (s : string) : string := quote ++ escape s ++ quote.

(** The members of an object, keys in byte order. *)
Definition encode_object (members : list (string * string)) : string :=
  "{" ++ strings_Join
           ((λ kv, encode_string kv.1 ++ ":" ++ kv.2)
              <$> merge_sort (λ a b, Is_true (String.leb a.1 b.1)) members) ","
  ++ "}".

Fixpoint encode (v : value) : string :=
  match v with
  | VString s => encode_string s
  | VInt n => pretty n
  | VBool b => if b then "true" else "false"
  | VStrings l => "[" ++ strings_Join (encode_string <$> l) "," ++ "]"
  | VStringMap m => encode_object (map_to_list (encode_string <$> m))
  | VMap m => encode_object (map_to_list (encode <$> m))
  end.

Definition go_Marshal (v : value) : string + string := inl (encode v).

(** [strings.LastIndex(s, c)] for one byte: [i] is the offset of [s] in
    the whole string and [last] the latest hit. *)
Fixpoint last_index_from (i last : Z) (c : ascii) (s : string) : Z :=
  match s with
  | EmptyString => last
  | String a s' => last_index_from (i + 1) (if Ascii.eqb a c then i else last) c s'
  end.

Definition LastIndexByte (s : string) (c : ascii) : Z := last_index_from 0 (-1) c s.

Definition IndexByte (s : string) (c : ascii) : Z :=
  strings_Index s (String c EmptyString).

Definition go_SplitHostPort (hostport : string) : option (string * string) :=
  let i := LastIndexByte hostport ":" in
  if i <? 0 then None
  else
    let bracketed :=
      match hostport with
      | String "[" _ => true
      | _ => false
      end in
    let split :=
      if bracketed then
        let e := IndexByte hostport "]" in
        if e <? 0 then None
        else if e + 1 =? len hostport then None
        else if e + 1 =? i then
          Some (slice_to (slice_from hostport 1) (e - 1), 1, e + 1)
        else None
      else
        let host := slice_to hostport i in
        if IndexByte host ":" >=? 0 then None else Some (host, 0, 0) in
    match split with
    | None => None
    | Some (host, j, k) =>
        if IndexByte (slice_from hostport j) "[" >=? 0 then None
        else if IndexByte (slice_from hostport k) "]" >=? 0 then None
        else Some (host, slice_from hostport (i + 1))
    end.

(** A request to run the model on. *)
Definition sample_request : Request :=
  mkRequest "GET" (mkURL "/orders/7" "page=2") "HTTP/1.1"
    (list_to_map [("User-Agent", ["curl/8.0"]); ("Accept", ["a"; "b"; "c"]);
                  ("X-Session-Id", ["sess-42"; "other"])])
    "payload" (-1) ["chunked"] "api.example.com:8443" "203.0.113.9:51234"
    "/orders/7?page=2".

Definition sample_env : Env :=
  mkEnv (repeat Byte.xa7 16) 0 (mkTime 1793456789 123456789).

(** A serializer that rejects every value, to run the error path. *)
Definition failing_Marshal (v : value) : string + string :=
  inr "json: unsupported value".

(** The sample request with its header collection replaced. *)
Definition sample_with_header (hdr : http_Header) : Request :=
  set_Header hdr sample_request.

(** A reading of the clock in the last millisecond before the epoch, with
    a secure source that fails. *)
Definition env_before_epoch : Env :=
  mkEnv [] 0 (mkTime (-1) 999500000).

(** A reading of the clock one second past the last instant whose
    nanosecond count fits [int64] (2262-04-11T23:47:16Z). *)
Definition env_after_2262 : Env :=
  mkEnv [] 0 (mkTime 9223372037 0).

(** ** Reading an identifier back

    The sixteen bytes a string in the canonical layout denotes; used to
    state that the text of an identifier loses nothing. *)
Definition hexval (c : ascii) : option Z :=
  let n := Z.of_N (N_of_ascii c) in
  if is_digit c then Some (n - 48)
  else if byte_between "a" "f" c then Some (n - 87)
  else None.

Fixpoint unhex (s : string) : option (list Z) :=
  match s with
  | EmptyString => Some []
  | String hi (String lo s') =>
      match hexval hi, hexval lo, unhex s' with
      | Some h, Some l, Some bs => Some (16 * h + l :: bs)
      | _, _, _ => None
      end
  | String _ EmptyString => None
  end.

Definition uuid_decode (s : string) : option (list Z) :=
  if canonical_uuid s then
    unhex (String.substring 0 8 s ++ String.substring 9 4 s
           ++ String.substring 14 4 s ++ String.substring 19 4 s
           ++ String.substring 24 12 s)
  else None.

(** ** Predicates and tactics of the proofs *)

Definition is_uint8 (x : Z) : Prop := 0 <= x < 256.

(** No effect of the shape [H] claims is in the list. *)
Ltac absent_effect H :=
  repeat (apply elem_of_cons in H as [H|H]; [discriminate H|]);
  by apply elem_of_nil in H.

(** * Proofs *)

(** ** The host split *)

Lemma prefix_byte c s :
  String.prefix (String c "") s
  = match s with String a _ => Ascii.eqb a c | EmptyString => false end.
Proof.
  destruct s as [|a s]; simpl; [done|].
  destruct (ascii_dec c a) as [->|Hne].
  - rewrite Ascii.eqb_refl. by destruct s.
  - symmetry. apply Ascii.eqb_neq. congruence.
Qed.

Lemma Index_byte_absent c s :
  contains c s = false → strings_Index s (String c "") = -1.
Proof.
  induction s as [|a s IH]; [done|].
  cbn [strings_Index contains]. rewrite prefix_byte.
  destruct (Ascii.eqb a c); [done|]. cbn. intros H. by rewrite IH.
Qed.

Lemma Index_byte_present c s :
  contains c s = true →
  strings_Index s (String c "") = len (cut_at c s).
Proof.
  induction s as [|a s IH]; [done|].
  cbn [strings_Index contains cut_at]. rewrite prefix_byte.
  destruct (Ascii.eqb a c); [done|]. cbn [orb]. intros H.
  rewrite (IH H). unfold len. cbn [String.length].
  destruct (Z.eqb_spec (Z.of_nat (String.length (cut_at c s))) (-1)); lia.
Qed.

Lemma slice_to_cut c s :
  contains c s = true → slice_to s (len (cut_at c s)) = cut_at c s.
Proof.
  unfold slice_to, len. rewrite Nat2Z.id.
  induction s as [|a s IH]; [done|].
  cbn [contains cut_at]. destruct (Ascii.eqb a c); [done|].
  cbn [orb String.length String.substring]. intros H. by rewrite IH.
Qed.

Lemma cut_at_absent c s : contains c s = false → cut_at c s = s.
Proof.
  induction s as [|a s IH]; [done|].
  cbn [contains cut_at]. destruct (Ascii.eqb a c); [done|].
  cbn. intros H. by rewrite IH.
Qed.

Lemma cut_at_app c pre post :
  contains c pre = false → cut_at c (pre ++ String c post) = pre.
Proof.
  induction pre as [|a pre IH]; simpl.
  - by rewrite Ascii.eqb_refl.
  - destruct (Ascii.eqb a c); [done|]. simpl. intros H. by rewrite IH.
Qed.

Lemma domainName_of_cut host : domainName_of host = cut_at ":" host.
Proof.
  unfold domainName_of. destruct (contains ":" host) eqn:Hc.
  - rewrite (Index_byte_present _ _ Hc).
    destruct (Z.eqb_spec (len (cut_at ":" host)) (-1)) as [E|_].
    + unfold len in E. lia.
    + by apply slice_to_cut.
  - rewrite (Index_byte_absent _ _ Hc). cbn. by rewrite cut_at_absent.
Qed.

Lemma Split_byte_absent c s :
  contains c s = false → strings_Split s (String c "") = [s].
Proof.
  intros Hc. unfold strings_Split. destruct (String.length s); [done|].
  cbn [genSplit]. by rewrite (Index_byte_absent _ _ Hc).
Qed.

Lemma Split_byte_present c s :
  contains c s = true →
  ∃ rest, strings_Split s (String c "") = cut_at c s :: rest ∧ (0 < length rest)%nat.
Proof.
  intros Hc. unfold strings_Split.
  destruct s as [|a s]; [done|]. cbn [String.length genSplit].
  rewrite (Index_byte_present _ _ Hc).
  destruct (Z.ltb_spec (len (cut_at c (String a s))) 0) as [E|_].
  { unfold len in E. lia. }
  rewrite (slice_to_cut _ _ Hc). eexists. split; [done|].
  destruct (String.length s); cbn [genSplit]; [cbn; lia|].
  destruct (_ <? 0); cbn; lia.
Qed.

Lemma domainPrefix_of_cut dn :
  domainPrefix_of dn = if contains "." dn then cut_at "." dn else dn.
Proof.
  unfold domainPrefix_of. destruct (contains "." dn) eqn:Hc.
  - destruct (Split_byte_present _ _ Hc) as (rest & -> & Hlen).
    cbn [length nth].
    destruct (Z.gtb_spec (Z.of_nat (S (length rest))) 1); [done|lia].
  - by rewrite (Split_byte_absent _ _ Hc).
Qed.

(** ** The header fold *)

Lemma headersMap_of_lookup (hdr : http_Header) (k : string) :
  headersMap_of hdr !! k = (λ values, strings_Join values ",") <$> hdr !! k.
Proof.
  unfold headersMap_of.
  apply (map_fold_weak_ind
           (λ (r : gmap string string) (m : http_Header),
              r !! k = (λ values, strings_Join values ",") <$> m !! k)).
  - by rewrite !lookup_empty.
  - intros i x m r _ IH. destruct (decide (i = k)) as [->|Hne].
    + by rewrite !lookup_insert_eq.
    + by rewrite !lookup_insert_ne.
Qed.

Lemma headersMap_of_fmap (hdr : http_Header) :
  headersMap_of hdr = (λ values, strings_Join values ",") <$> hdr.
Proof. apply map_eq. intros k. by rewrite headersMap_of_lookup, lookup_fmap. Qed.

(** ** The identity source *)

Lemma canonical_session_key : CanonicalMIMEHeaderKey "x-session-id" = "X-Session-Id".
Proof. reflexivity. Qed.

Lemma identitySrc_of_lookup (hdr : http_Header) :
  identitySrc_of hdr
  = match hdr !! "X-Session-Id" with
    | Some (v :: _) => if String.eqb v "" then [] else [v]
    | _ => []
    end.
Proof.
  unfold identitySrc_of, Header_Get. rewrite canonical_session_key.
  destruct (hdr !! "X-Session-Id") as [[|v vs]|]; [done| |done].
  by destruct (String.eqb v "").
Qed.

(** ** The request identifier *)

Lemma Z_of_byte_uint8 b : is_uint8 (Z_of_byte b).
Proof.
  unfold is_uint8, Z_of_byte. pose proof (Byte.to_N_bounded b) as H.
  lia.
Qed.

Lemma to_uint8_uint8 x : is_uint8 (to_uint8 x).
Proof. unfold is_uint8, to_uint8. apply Z.mod_pos_bound. lia. Qed.

Lemma rand_Read_length entropy b : rand_Read entropy = Some b → length b = 16%nat.
Proof.
  unfold rand_Read. destruct (Nat.leb_spec 16 (length entropy)) as [Hl|]; [|done].
  intros [= <-]. rewrite length_fmap, length_take. lia.
Qed.

Lemma rand_Read_uint8 entropy b : rand_Read entropy = Some b → Forall is_uint8 b.
Proof.
  unfold rand_Read. destruct (16 <=? length entropy)%nat; [|done].
  intros [= <-]. apply Forall_fmap, Forall_true. intros x. apply Z_of_byte_uint8.
Qed.

Lemma fallback_bytes_length t : length (fallback_bytes t) = 16%nat.
Proof. reflexivity. Qed.

Lemma fallback_bytes_uint8 t : Forall is_uint8 (fallback_bytes t).
Proof.
  unfold fallback_bytes. apply Forall_fmap, Forall_true.
  intros i. apply to_uint8_uint8.
Qed.

Lemma version_nibble x : Z.shiftr (Z.lor (Z.land x 0x0F) 0x40) 4 = 4.
Proof.
  rewrite Z.shiftr_lor, Z.shiftr_land. change (Z.shiftr 15 4) with 0.
  by rewrite Z.land_0_r.
Qed.

Lemma variant_bits x : Z.shiftr (Z.lor (Z.land x 0x3F) 0x80) 6 = 2.
Proof.
  rewrite Z.shiftr_lor, Z.shiftr_land. change (Z.shiftr 63 6) with 0.
  by rewrite Z.land_0_r.
Qed.

Lemma land_mask_uint8 x k : 0 <= k <= 8 → is_uint8 (Z.land x (Z.ones k)).
Proof.
  intros Hk. unfold is_uint8. rewrite Z.land_ones by lia.
  pose proof (Z.mod_pos_bound x (2 ^ k)) as H.
  pose proof (Z.pow_le_mono_r 2 k 8) as Hp. change (2 ^ 8) with 256 in Hp.
  assert (0 < 2 ^ k) by (apply Z.pow_pos_nonneg; lia). lia.
Qed.

Lemma lor_uint8 a b : is_uint8 a → is_uint8 b → is_uint8 (Z.lor a b).
Proof.
  unfold is_uint8. intros Ha Hb.
  assert (0 <= Z.lor a b) as Hnn by (apply Z.lor_nonneg; lia).
  split; [done|].
  destruct (Z.eq_dec (Z.lor a b) 0) as [->|Hne]; [lia|].
  change 256 with (2 ^ 8). apply Z.log2_lt_pow2; [lia|].
  rewrite Z.log2_lor by lia.
  assert (Z.log2 a < 8).
  { destruct (Z.eq_dec a 0) as [->|]; [done|]. apply Z.log2_lt_pow2; lia. }
  assert (Z.log2 b < 8).
  { destruct (Z.eq_dec b 0) as [->|]; [done|]. apply Z.log2_lt_pow2; lia. }
  lia.
Qed.

Lemma uuid_bytes_length entropy t : length (uuid_bytes entropy t) = 16%nat.
Proof.
  unfold uuid_bytes. rewrite !length_insert.
  destruct (rand_Read entropy) as [b|] eqn:Hr.
  - by apply rand_Read_length in Hr.
  - apply fallback_bytes_length.
Qed.

Lemma filled_bytes_uint8 entropy t :
  Forall is_uint8 (match rand_Read entropy with
                   | Some b => b
                   | None => fallback_bytes t
                   end).
Proof.
  destruct (rand_Read entropy) as [b|] eqn:Hr.
  - by apply rand_Read_uint8 in Hr.
  - apply fallback_bytes_uint8.
Qed.

Lemma uuid_bytes_uint8 entropy t : Forall is_uint8 (uuid_bytes entropy t).
Proof.
  unfold uuid_bytes.
  repeat apply Forall_insert; try apply filled_bytes_uint8.
  - apply lor_uint8; [apply (land_mask_uint8 _ 4)|unfold is_uint8]; lia.
  - apply lor_uint8; [apply (land_mask_uint8 _ 6)|unfold is_uint8]; lia.
Qed.

(** Bytes 6 and 8 of the identifier carry the version and the variant. *)
Lemma uuid_bytes_6 entropy t :
  ∃ x, uuid_bytes entropy t !! 6%nat = Some (Z.lor (Z.land x 0x0F) 0x40).
Proof.
  unfold uuid_bytes. eexists.
  rewrite list_lookup_insert_ne by done.
  apply list_lookup_insert_eq.
  destruct (rand_Read entropy) as [b|] eqn:Hr.
  - apply rand_Read_length in Hr. lia.
  - rewrite fallback_bytes_length. lia.
Qed.

Lemma uuid_bytes_8 entropy t :
  ∃ x, uuid_bytes entropy t !! 8%nat = Some (Z.lor (Z.land x 0x3F) 0x80).
Proof.
  unfold uuid_bytes. eexists.
  apply list_lookup_insert_eq. rewrite length_insert.
  destruct (rand_Read entropy) as [b|] eqn:Hr.
  - apply rand_Read_length in Hr. lia.
  - rewrite fallback_bytes_length. lia.
Qed.

Lemma hexdigit_is_hex n : 0 <= n < 16 → is_hex (hexdigit n) = true.
Proof.
  intros Hn.
  assert (n = 0 ∨ n = 1 ∨ n = 2 ∨ n = 3 ∨ n = 4 ∨ n = 5 ∨ n = 6 ∨ n = 7 ∨
          n = 8 ∨ n = 9 ∨ n = 10 ∨ n = 11 ∨ n = 12 ∨ n = 13 ∨ n = 14 ∨ n = 15)
    as H by lia.
  repeat (destruct H as [->|H]; [reflexivity|]). by subst.
Qed.

Lemma high_nibble_range c : is_uint8 c → 0 <= Z.shiftr c 4 < 16.
Proof.
  unfold is_uint8. intros Hc. rewrite Z.shiftr_div_pow2 by lia.
  change (2 ^ 4) with 16. split.
  - apply Z.div_pos; lia.
  - apply Z.div_lt_upper_bound; lia.
Qed.

Lemma low_nibble_range c : 0 <= Z.land c 15 < 16.
Proof.
  change 15 with (Z.ones 4). rewrite Z.land_ones by lia.
  apply Z.mod_pos_bound. lia.
Qed.

Lemma variant_nibble x :
  let n := Z.shiftr (Z.lor (Z.land x 0x3F) 0x80) 4 in
  n = 8 ∨ n = 9 ∨ n = 10 ∨ n = 11.
Proof.
  cbv zeta. rewrite Z.shiftr_lor, Z.shiftr_land.
  change (Z.shiftr 63 4) with (Z.ones 2). change (Z.shiftr 128 4) with 8.
  rewrite Z.land_ones by lia.
  pose proof (Z.mod_pos_bound (Z.shiftr x 4) (2 ^ 2) eq_refl) as H.
  change (2 ^ 2) with 4 in *.
  assert (Z.shiftr x 4 mod 4 = 0 ∨ Z.shiftr x 4 mod 4 = 1 ∨
          Z.shiftr x 4 mod 4 = 2 ∨ Z.shiftr x 4 mod 4 = 3) as Hc by lia.
  destruct Hc as [-> | [-> | [-> | ->]]]; cbn; tauto.
Qed.

Lemma sixteen_bytes (b : list Z) :
  length b = 16%nat →
  ∃ b0 b1 b2 b3 b4 b5 b6 b7 b8 b9 b10 b11 b12 b13 b14 b15,
    b = [b0; b1; b2; b3; b4; b5; b6; b7; b8; b9; b10; b11; b12; b13; b14; b15].
Proof.
  intros H.
  do 16 (destruct b as [|? b]; [discriminate H|]).
  destruct b; [|discriminate H]. by repeat eexists.
Qed.

Lemma hex_pair_ok c :
  is_uint8 c →
  is_hex (hexdigit (Z.shiftr c 4)) = true ∧ is_hex (hexdigit (Z.land c 15)) = true.
Proof.
  intros Hc. split; apply hexdigit_is_hex.
  - by apply high_nibble_range.
  - apply low_nibble_range.
Qed.

(** Claim C6.  Whatever the secure source delivers, sixteen bytes or too
    few so that the clock fallback fills the buffer, the identifier is 36
    bytes in the layout 8-4-4-4-12 of lower-case hexadecimal digits and
    hyphens; the high nibble of byte 6 is 4, printed at offset 14, and the
    top two bits of byte 8 are 10, so that offset 19 holds 8, 9, a or b. *)
Theorem generateUUID_canonical (entropy : list byte) (t : Z) :
  let s := generateUUID entropy t in
  let b := uuid_bytes entropy t in
  String.length s = 36%nat ∧
  canonical_uuid s = true ∧
  String.get 14 s = Some "4"%char ∧
  (∃ c, String.get 19 s = Some c ∧ c ∈ ["8"; "9"; "a"; "b"]%char) ∧
  Z.shiftr (b !!! 6%nat) 4 = 4 ∧
  Z.shiftr (b !!! 8%nat) 6 = 2.
Proof.
  cbv zeta. unfold generateUUID.
  pose proof (uuid_bytes_uint8 entropy t) as Hu.
  destruct (uuid_bytes_6 entropy t) as [x6 H6].
  destruct (uuid_bytes_8 entropy t) as [x8 H8].
  destruct (sixteen_bytes _ (uuid_bytes_length entropy t))
    as (b0 & b1 & b2 & b3 & b4 & b5 & b6 & b7 & b8 & b9 & b10 & b11 & b12
        & b13 & b14 & b15 & Hb).
  rewrite Hb in *. injection H6 as ->. injection H8 as ->.
  repeat match goal with
         | H : Forall _ (_ :: _) |- _ => apply Forall_cons in H; destruct H as [?%hex_pair_ok H]
         end.
  repeat match goal with H : _ ∧ _ |- _ => destruct H end.
  pose proof (version_nibble x6) as Hv.
  pose proof (variant_nibble x8) as Hn. cbv zeta in Hn.
  pose proof (variant_bits x8) as Hw.
  change 0x0F with 15 in *. change 0x40 with 64 in *.
  change 0x3F with 63 in *. change 0x80 with 128 in *.
  set (v6 := Z.lor (Z.land x6 15) 64) in *.
  set (v8 := Z.lor (Z.land x8 63) 128) in *.
  clearbody v6 v8.
  split; [reflexivity|].
  split.
  { unfold canonical_uuid. cbv -[hexdigit Z.shiftr Z.land is_hex].
    repeat match goal with H : is_hex _ = true |- _ => rewrite H; clear H end.
    reflexivity. }
  split.
  { cbv -[hexdigit Z.shiftr Z.land]. by rewrite Hv. }
  split.
  { cbv -[hexdigit Z.shiftr Z.land]. eexists; split; [reflexivity|].
    destruct Hn as [-> | [-> | [-> | ->]]]; cbn; set_solver. }
  split; [exact Hv | exact Hw].
Qed.

(** ** The timestamp *)

Lemma civil_from_days_inv z :
  let '(y, m, d) := civil_from_days z in
  days_from_civil y m d = z ∧ 1 <= m <= 12 ∧ 1 <= d <= 31.
Proof.
  unfold civil_from_days.
  set (z' := z + 719468).
  set (era := z' / 146097). set (doe := z' mod 146097).
  assert (0 <= doe < 146097) as Hdoe by (apply Z.mod_pos_bound; lia).
  assert (z' = 146097 * era + doe) as Hz by (apply Z.div_mod; lia).
  set (yoe := (doe - doe / 1460 + doe / 36524 - doe / 146096) / 365).
  assert (0 <= yoe <= 399) as Hyoe.
  { subst yoe. clearbody doe. clear -Hdoe. Z.div_mod_to_equations. lia. }
  set (doy := doe - (365 * yoe + yoe / 4 - yoe / 100)).
  assert (0 <= doy <= 365) as Hdoy.
  { subst doy yoe. clearbody doe. clear -Hdoe. Z.div_mod_to_equations. lia. }
  set (mp := (5 * doy + 2) / 153).
  assert (0 <= mp <= 11) as Hmp.
  { subst mp. clearbody doy. clear -Hdoy. Z.div_mod_to_equations. lia. }
  set (d := doy - (153 * mp + 2) / 5 + 1).
  assert (1 <= d <= 31) as Hd.
  { subst d mp. clearbody doy. clear -Hdoy. Z.div_mod_to_equations. lia. }
  set (m := if mp <? 10 then mp + 3 else mp - 9).
  assert (1 <= m <= 12 ∧ (if m >? 2 then m - 3 else m + 9) = mp) as [Hm Hmp'].
  { subst m. destruct (Z.ltb_spec mp 10).
    - destruct (Z.gtb_spec (mp + 3) 2); lia.
    - destruct (Z.gtb_spec (mp - 9) 2); lia. }
  split; [|done].
  unfold days_from_civil. rewrite Hmp'.
  assert (∀ y, (y = yoe + era * 400) → y / 400 = era ∧ y mod 400 = yoe) as Hy.
  { intros y ->. rewrite Z.div_add, Z.mod_add by lia.
    rewrite Z.div_small, Z.mod_small by lia. lia. }
  destruct (Z.leb_spec m 2).
  - destruct (Hy (yoe + era * 400 + 1 - 1)) as [-> ->]; [lia|].
    subst d doy z'. lia.
  - destruct (Hy (yoe + era * 400)) as [-> ->]; [lia|].
    subst d doy z'. lia.
Qed.

Lemma civil_year_range z :
  0 <= z < 2932897 → 1970 <= (civil_from_days z).1.1 <= 9999.
Proof.
  intros Hz. unfold civil_from_days.
  set (z' := z + 719468).
  set (era := z' / 146097). set (doe := z' mod 146097).
  assert (0 <= doe < 146097) as Hdoe by (apply Z.mod_pos_bound; lia).
  assert (z' = 146097 * era + doe) as Hz' by (apply Z.div_mod; lia).
  set (yoe := (doe - doe / 1460 + doe / 36524 - doe / 146096) / 365).
  set (doy := doe - (365 * yoe + yoe / 4 - yoe / 100)).
  set (mp := (5 * doy + 2) / 153).
  cbn [fst].
  destruct (Z.leb_spec (if mp <? 10 then mp + 3 else mp - 9) 2) as [Hm|Hm];
    destruct (Z.ltb_spec mp 10); subst mp doy yoe z'; clearbody era doe;
    Z.div_mod_to_equations; lia.
Qed.

Lemma digit_char_spec k :
  0 <= k < 10 → digit_val (digit_char k) = k ∧ is_digit (digit_char k) = true.
Proof.
  intros Hk.
  assert (k = 0 ∨ k = 1 ∨ k = 2 ∨ k = 3 ∨ k = 4 ∨ k = 5 ∨ k = 6 ∨ k = 7 ∨
          k = 8 ∨ k = 9) as H by lia.
  repeat (destruct H as [->|H]; [by split|]). by subst.
Qed.

Lemma digit_val_mod k : digit_val (digit_char (k mod 10)) = k mod 10.
Proof. apply digit_char_spec, Z.mod_pos_bound. lia. Qed.

Lemma is_digit_mod k : is_digit (digit_char (k mod 10)) = true.
Proof. apply digit_char_spec, Z.mod_pos_bound. lia. Qed.

Lemma appendInt_2 x :
  0 <= x < 100 →
  appendInt x 2
  = String (digit_char (x / 10 mod 10)) (String (digit_char (x mod 10)) "").
Proof.
  intros Hx. unfold appendInt.
  destruct (Z.ltb_spec x 0); [lia|]. rewrite Z.abs_eq by lia.
  change (10 ^ Z.of_nat 2) with 100.
  destruct (Z.ltb_spec x 100); [|lia]. reflexivity.
Qed.

Lemma appendInt_4 x :
  0 <= x < 10000 →
  appendInt x 4
  = String (digit_char (x / 10 / 10 / 10 mod 10))
      (String (digit_char (x / 10 / 10 mod 10))
         (String (digit_char (x / 10 mod 10))
            (String (digit_char (x mod 10)) ""))).
Proof.
  intros Hx. unfold appendInt.
  destruct (Z.ltb_spec x 0); [lia|]. rewrite Z.abs_eq by lia.
  change (10 ^ Z.of_nat 4) with 10000.
  destruct (Z.ltb_spec x 10000); [|lia]. reflexivity.
Qed.

Lemma read_2 x :
  0 <= x < 100 →
  read_digits 0 [digit_char (x / 10 mod 10); digit_char (x mod 10)] = x.
Proof.
  intros Hx. cbn [read_digits]. rewrite !digit_val_mod.
  Z.div_mod_to_equations. lia.
Qed.

Lemma read_4 x :
  0 <= x < 10000 →
  read_digits 0 [digit_char (x / 10 / 10 / 10 mod 10); digit_char (x / 10 / 10 mod 10);
                 digit_char (x / 10 mod 10); digit_char (x mod 10)] = x.
Proof.
  intros Hx. cbn [read_digits]. rewrite !digit_val_mod.
  Z.div_mod_to_equations. lia.
Qed.

(** An instant from the epoch up to the end of year 9999 is rendered in
    twenty bytes: four digits for the year and two for every other
    field. *)
Lemma Format_RFC3339_digits t :
  0 <= unixSec t < 2932897 * 86400 →
  let days := unixSec t / 86400 in
  let rem := unixSec t mod 86400 in
  ∃ y m d,
    days_from_civil y m d = days ∧
    0 <= y < 10000 ∧ 0 <= m < 100 ∧ 0 <= d < 100 ∧
    Format_RFC3339 t
    = appendInt y 4 ++ "-" ++ appendInt m 2 ++ "-" ++ appendInt d 2 ++ "T"
      ++ appendInt (rem / 3600) 2 ++ ":" ++ appendInt (rem mod 3600 / 60) 2
      ++ ":" ++ appendInt (rem mod 60) 2 ++ "Z".
Proof.
  intros Ht. cbv zeta. unfold Format_RFC3339.
  set (days := unixSec t / 86400).
  assert (0 <= days < 2932897) as Hdays.
  { subst days. clear -Ht. Z.div_mod_to_equations. lia. }
  pose proof (civil_from_days_inv days) as Hinv.
  pose proof (civil_year_range days Hdays) as Hyear.
  destruct (civil_from_days days) as [[y m] d]. cbn [fst] in Hyear.
  destruct Hinv as (Hinv & Hm & Hd).
  exists y, m, d. repeat split; lia.
Qed.

Lemma clock_fields_range rem :
  0 <= rem < 86400 →
  0 <= rem / 3600 < 100 ∧ 0 <= rem mod 3600 / 60 < 100 ∧ 0 <= rem mod 60 < 100.
Proof. intros Hrem. Z.div_mod_to_equations. lia. Qed.

Lemma Format_RFC3339_shape t :
  0 <= unixSec t < 2932897 * 86400 →
  String.length (Format_RFC3339 t) = 20%nat ∧
  String.get 19 (Format_RFC3339 t) = Some "Z"%char.
Proof.
  intros Ht.
  destruct (Format_RFC3339_digits t Ht) as (y & m & d & _ & Hy & Hm & Hd & ->).
  destruct (clock_fields_range (unixSec t mod 86400)) as (Hh & Hmi & Hs).
  { apply Z.mod_pos_bound. lia. }
  rewrite (appendInt_4 y), !appendInt_2 by lia.
  split; reflexivity.
Qed.

(** The twenty bytes denote the Unix second of the instant. *)
Lemma rfc3339_unix_Format t :
  0 <= unixSec t < 2932897 * 86400 →
  rfc3339_unix (Format_RFC3339 t) = Some (unixSec t).
Proof.
  intros Ht.
  destruct (Format_RFC3339_digits t Ht) as (y & m & d & Hinv & Hy & Hm & Hd & ->).
  set (rem := unixSec t mod 86400) in *.
  assert (0 <= rem < 86400) as Hrem by (apply Z.mod_pos_bound; lia).
  destruct (clock_fields_range rem Hrem) as (Hh & Hmi & Hs).
  rewrite (appendInt_4 y), !appendInt_2 by lia.
  unfold rfc3339_unix.
  cbv [String.append list_ascii_of_string forallb].
  rewrite !is_digit_mod. cbn [andb Ascii.eqb Bool.eqb].
  rewrite (read_4 y), !read_2 by lia.
  rewrite Hinv. f_equal.
  pose proof (Z.div_mod (unixSec t) 86400) as Hsec. fold rem in Hsec.
  clearbody rem. clear -Hsec Hrem. Z.div_mod_to_equations. lia.
Qed.

(** ** The middleware *)

Lemma Sprintf_d_inj n m : Sprintf_d n = Sprintf_d m → n = m.
Proof. unfold Sprintf_d. apply pretty_Z_inj. Qed.

Lemma canonical_content_type : CanonicalMIMEHeaderKey "Content-Type" = "Content-Type".
Proof. reflexivity. Qed.

Lemma canonical_content_length :
  CanonicalMIMEHeaderKey "Content-Length" = "Content-Length".
Proof. reflexivity. Qed.

Section Properties.

Variable json_Marshal : value -> string + string.
Variable net_SplitHostPort : string -> option (string * string).


Lemma ServeHTTP_inl env req jsonData :
  json_Marshal (build_event net_SplitHostPort env req) = inl jsonData →
  ServeHTTP json_Marshal net_SplitHostPort env req
  = (rewrite_request jsonData req, [next_ServeHTTP (rewrite_request jsonData req)]).
Proof. unfold ServeHTTP. by intros ->. Qed.

Lemma ServeHTTP_inr env req err :
  json_Marshal (build_event net_SplitHostPort env req) = inr err →
  ServeHTTP json_Marshal net_SplitHostPort env req
  = (req, http_Error ("JSON marshal error: " ++ err) http_StatusInternalServerError).
Proof. unfold ServeHTTP. by intros ->. Qed.

Lemma rewrite_request_eq jsonData req :
  rewrite_request jsonData req
  = mkRequest "POST" (Url req) (Proto req)
      (<["Content-Length" := [Sprintf_d (len jsonData)]]>
         (<["Content-Type" := ["application/json"]]> (Header req)))
      jsonData (len jsonData) [] (Host req) (RemoteAddr req)
      "/2015-03-31/functions/function/invocations".
Proof. reflexivity. Qed.

(** Claim C1.  When the event serializes to [jsonData], the request handed
    to the next handler has method [POST], request target
    [/2015-03-31/functions/function/invocations], the single
    [Content-Type] value [application/json], a [Content-Length] header
    that is the decimal form of the byte length of [jsonData] and of no
    other number, the same length in [ContentLength], no transfer
    encoding, and [jsonData] as its body. *)
Theorem ServeHTTP_forwards_rewritten_request env req jsonData :
  json_Marshal (build_event net_SplitHostPort env req) = inl jsonData →
  ∃ req',
    ServeHTTP json_Marshal net_SplitHostPort env req = (req', [next_ServeHTTP req']) ∧
    Method req' = "POST" ∧
    RequestURI req' = "/2015-03-31/functions/function/invocations" ∧
    Header req' !! "Content-Type" = Some ["application/json"] ∧
    Header_Get (Header req') "Content-Type" = "application/json" ∧
    Header req' !! "Content-Length" = Some [Sprintf_d (Z.of_nat (String.length jsonData))] ∧
    (∀ n, Header_Get (Header req') "Content-Length" = Sprintf_d n →
          n = Z.of_nat (String.length jsonData)) ∧
    ContentLength req' = Z.of_nat (String.length jsonData) ∧
    TransferEncoding req' = [] ∧
    Body req' = jsonData.
Proof.
  intros HM. exists (rewrite_request jsonData req).
  split; [by apply ServeHTTP_inl|].
  rewrite rewrite_request_eq. cbn [Method RequestURI Header ContentLength
    TransferEncoding Body]. unfold Header_Get.
  rewrite canonical_content_type, canonical_content_length.
  rewrite lookup_insert_eq, lookup_insert_ne, lookup_insert_eq by done.
  repeat split; try done. intros n Hn. symmetry. by apply Sprintf_d_inj.
Qed.

(** Claim C2.  The top-level [routeKey] and [requestContext.routeKey] of
    the event are the method and the path of the request as it arrived,
    joined by one space, and [http.method] and [http.path] are that method
    and that path; the event is built before the request is rewritten, so
    the body of the forwarded request is the serialization of this event
    although its method is then [POST]. *)
Theorem routeKey_from_original_request env req :
  let ev := build_event net_SplitHostPort env req in
  let key := VString (Method req ++ " " ++ Path (Url req)) in
  field ["routeKey"] ev = Some key ∧
  field ["requestContext"; "routeKey"] ev = Some key ∧
  field ["requestContext"; "http"; "method"] ev = Some (VString (Method req)) ∧
  field ["requestContext"; "http"; "path"] ev = Some (VString (Path (Url req))) ∧
  (∀ jsonData, json_Marshal ev = inl jsonData →
     Method (ServeHTTP json_Marshal net_SplitHostPort env req).1 = "POST" ∧
     Body (ServeHTTP json_Marshal net_SplitHostPort env req).1 = jsonData ∧
     (ServeHTTP json_Marshal net_SplitHostPort env req).2
     = [next_ServeHTTP (ServeHTTP json_Marshal net_SplitHostPort env req).1]).
Proof.
  cbv zeta. repeat split; try reflexivity;
    rewrite (ServeHTTP_inl _ _ _ H); reflexivity.
Qed.

(** Claim C3, as amended.  The [headers] field maps every name of the
    header collection, and no other name, to its values joined by single
    commas in their order; values [a], [b], [c] give [a,b,c]; a name whose
    list of values is empty is mapped to the empty string. *)
Theorem headers_folded env req :
  let ev := build_event net_SplitHostPort env req in
  ∃ m, field ["headers"] ev = Some (VStringMap m) ∧
       (∀ name, m !! name = (λ values, strings_Join values ",") <$> Header req !! name) ∧
       strings_Join ["a"; "b"; "c"] "," = "a,b,c" ∧
       strings_Join [] "," = "" ∧
       (∀ v, strings_Join [v] "," = v) ∧
       (∀ v w rest, strings_Join (v :: w :: rest) ","
                    = v ++ "," ++ strings_Join (w :: rest) ",").
Proof.
  cbv zeta. exists (headersMap_of (Header req)).
  split; [reflexivity|]. split; [|done].
  intros name. apply headersMap_of_lookup.
Qed.

(** Claim C4.  [domainName] is the host up to its first colon, the whole
    host when it has none; [domainPrefix] is [domainName] up to its first
    dot when it has one and [domainName] otherwise. *)
Theorem domain_split env req :
  let ev := build_event net_SplitHostPort env req in
  let domainName := cut_at ":" (Host req) in
  field ["requestContext"; "domainName"] ev = Some (VString domainName) ∧
  field ["requestContext"; "domainPrefix"] ev
  = Some (VString (if contains "." domainName then cut_at "." domainName
                   else domainName)) ∧
  domainName_of "api.example.com:8443" = "api.example.com" ∧
  domainPrefix_of (domainName_of "api.example.com:8443") = "api" ∧
  domainName_of "localhost" = "localhost" ∧
  domainPrefix_of (domainName_of "localhost") = "localhost".
Proof.
  cbv zeta. rewrite <- domainName_of_cut, <- domainPrefix_of_cut.
  repeat split; reflexivity.
Qed.

(** Claim C5, as amended.  In every event [version] is ["2.0"], [type] is
    ["REQUEST"], [accountId], [apiId] and [stage] are ["local"], [body] is
    the empty string and [isBase64Encoded] is false; [identitySource]
    holds the first [x-session-id] value alone when that value is not
    empty, and nothing when the header is absent, has no value or has an
    empty first value. *)
Theorem event_constants env req :
  let ev := build_event net_SplitHostPort env req in
  field ["version"] ev = Some (VString "2.0") ∧
  field ["type"] ev = Some (VString "REQUEST") ∧
  field ["requestContext"; "accountId"] ev = Some (VString "local") ∧
  field ["requestContext"; "apiId"] ev = Some (VString "local") ∧
  field ["requestContext"; "stage"] ev = Some (VString "local") ∧
  field ["body"] ev = Some (VString "") ∧
  field ["isBase64Encoded"] ev = Some (VBool false) ∧
  field ["identitySource"] ev
  = Some (VStrings match Header req !! "X-Session-Id" with
                   | Some (v :: _) => if String.eqb v "" then [] else [v]
                   | _ => []
                   end).
Proof.
  cbv zeta. rewrite <- identitySrc_of_lookup. repeat split; reflexivity.
Qed.

(** Claim C7.  The response writer is used, with status 500 and a
    plain-text message, exactly when serialization fails, and then the
    next handler is not called and the request is left as it arrived;
    when serialization succeeds the only effect, hence the last, is the
    call of the next handler with the rewritten request. *)
Theorem ServeHTTP_fails_iff_marshal_fails env req :
  let ev := build_event net_SplitHostPort env req in
  let r := ServeHTTP json_Marshal net_SplitHostPort env req in
  ((∃ err, json_Marshal ev = inr err) ↔ rw_WriteHeader 500 ∈ r.2) ∧
  ((∃ jsonData, json_Marshal ev = inl jsonData) ↔ ∃ q, next_ServeHTTP q ∈ r.2) ∧
  match json_Marshal ev with
  | inr err =>
      r.1 = req ∧
      r.2 = [rw_Header_Set "Content-Type" "text/plain; charset=utf-8";
             rw_Header_Set "X-Content-Type-Options" "nosniff";
             rw_WriteHeader 500;
             rw_Write (("JSON marshal error: " ++ err) ++ newline)] ∧
      (∀ q, next_ServeHTTP q ∉ r.2)
  | inl jsonData =>
      r.1 = rewrite_request jsonData req ∧
      r.2 = [next_ServeHTTP r.1] ∧
      last r.2 = Some (next_ServeHTTP r.1) ∧
      (∀ code, rw_WriteHeader code ∉ r.2)
  end.
Proof.
  cbv zeta. unfold ServeHTTP.
  destruct (json_Marshal (build_event net_SplitHostPort env req)) as [jsonData|err]; cbn [fst snd];
    unfold http_Error, http_StatusInternalServerError.
  - split; [|split].
    + split; [intros [err [=]]|]. intros H. absent_effect H.
    + split; [|by eauto]. intros _. eexists. apply elem_of_cons. by left.
    + repeat split; try done. intros code H. absent_effect H.
  - split; [|split].
    + split; [|by eauto]. intros _. rewrite !elem_of_cons. tauto.
    + split; [intros [d [=]]|]. intros [q H]. absent_effect H.
    + repeat split; try done. intros q H. absent_effect H.
Qed.

(** Claim C9.  On the success path the request that is forwarded differs
    from the one that arrived in [Body], [ContentLength], [Method],
    [TransferEncoding], [RequestURI] and the [Content-Type] and
    [Content-Length] headers only: the URL with its path and query, the
    host, the remote address, the protocol and every other header are as
    they arrived. *)
Theorem ServeHTTP_frame env req jsonData :
  json_Marshal (build_event net_SplitHostPort env req) = inl jsonData →
  let req' := (ServeHTTP json_Marshal net_SplitHostPort env req).1 in
  req' = mkRequest (Method req') (Url req) (Proto req) (Header req') (Body req')
           (ContentLength req') (TransferEncoding req') (Host req)
           (RemoteAddr req) (RequestURI req') ∧
  Path (Url req') = Path (Url req) ∧
  RawQuery (Url req') = RawQuery (Url req) ∧
  Host req' = Host req ∧
  RemoteAddr req' = RemoteAddr req ∧
  Proto req' = Proto req ∧
  (∀ name, name ≠ "Content-Type" → name ≠ "Content-Length" →
           Header req' !! name = Header req !! name).
Proof.
  intros HM. cbv zeta. rewrite (ServeHTTP_inl _ _ _ HM). cbn [fst].
  rewrite rewrite_request_eq. cbn [Method Url Proto Header Body ContentLength
    TransferEncoding Host RemoteAddr RequestURI].
  repeat split; try done.
  intros name H1 H2. by rewrite !lookup_insert_ne.
Qed.

(** Claim C10.  When [x-session-id] has the values [v :: vs],
    [identitySource] is [[v]] for a non-empty [v], whatever [vs] is,
    while the [headers] field joins all the values; for an empty [v]
    [identitySource] is empty, as it is without the header. *)
Theorem identitySource_first_value env req v vs :
  Header req !! "X-Session-Id" = Some (v :: vs) →
  let ev := build_event net_SplitHostPort env req in
  field ["identitySource"] ev = Some (VStrings (if String.eqb v "" then [] else [v])) ∧
  (∃ m, field ["headers"] ev = Some (VStringMap m) ∧
        m !! "X-Session-Id" = Some (strings_Join (v :: vs) ",")) ∧
  (v = "" →
   field ["identitySource"] ev
   = field ["identitySource"]
       (build_event net_SplitHostPort env
          (set_Header (delete "X-Session-Id" (Header req)) req))).
Proof.
  intros Hh. cbv zeta.
  assert (∀ r, field ["identitySource"] (build_event net_SplitHostPort env r)
               = Some (VStrings (identitySrc_of (Header r)))) as Hid by reflexivity.
  rewrite !Hid, !identitySrc_of_lookup, Hh. split; [done|]. split.
  - exists (headersMap_of (Header req)). split; [reflexivity|].
    by rewrite headersMap_of_lookup, Hh.
  - intros ->. cbn [Header set_Header]. by rewrite lookup_delete_eq.
Qed.

(** Claim C8, as amended.  The instant of line 85 is read once; for an
    instant at or after the epoch whose nanosecond count fits [int64],
    [time] is its RFC 3339 rendering, twenty bytes ending in the
    designator [Z], and [timeEpoch] is its count of milliseconds since
    the epoch; the Unix second the [time] string denotes is
    [timeEpoch / 1000]. *)
Theorem timestamp_consistent env req :
  0 <= unixSec (now env) →
  0 <= nsec (now env) < 1000000000 →
  unixSec (now env) * 1000000000 + nsec (now env) < 2 ^ 63 →
  let ev := build_event net_SplitHostPort env req in
  ∃ timeStr timeEpoch,
    field ["requestContext"; "time"] ev = Some (VString timeStr) ∧
    field ["requestContext"; "timeEpoch"] ev = Some (VInt timeEpoch) ∧
    timeStr = Format_RFC3339 (now env) ∧
    String.length timeStr = 20%nat ∧
    String.get 19 timeStr = Some "Z"%char ∧
    timeEpoch = (unixSec (now env) * 1000000000 + nsec (now env)) / 1000000 ∧
    timeEpoch / 1000 = unixSec (now env) ∧
    rfc3339_unix timeStr = Some (timeEpoch / 1000).
Proof.
  intros Hsec Hnsec Hfit. cbv zeta.
  set (t := now env) in *.
  set (n := unixSec t * 1000000000 + nsec t) in *.
  assert (Time_UnixNano t = n) as Hn.
  { unfold Time_UnixNano, to_int64. fold n. rewrite Z.mod_small; lia. }
  assert (Z.quot n 1000000 = n / 1000000) as Hq by (apply Z.quot_div_nonneg; lia).
  assert (n / 1000000 / 1000 = unixSec t) as Hms.
  { subst n. clear -Hsec Hnsec. Z.div_mod_to_equations. lia. }
  assert (0 <= unixSec t < 2932897 * 86400) as Hrange by lia.
  exists (Format_RFC3339 t), (n / 1000000).
  split; [reflexivity|].
  split; [cbn [field]; unfold build_event; fold t; rewrite Hn, Hq; reflexivity|].
  split; [reflexivity|].
  rewrite Hms, (rfc3339_unix_Format t Hrange).
  pose proof (Format_RFC3339_shape t Hrange) as (Hlen & Hz).
  done.
Qed.

End Properties.

(** ** The middleware run on concrete requests *)

Example uuid_from_entropy :
  generateUUID (repeat Byte.xff 16) 0 = "ffffffff-ffff-4fff-bfff-ffffffffffff".
Proof. reflexivity. Qed.

Example uuid_from_clock :
  generateUUID [] 1234567890123456789 = "1581e97d-f410-4211-8000-000000000000".
Proof. reflexivity. Qed.

Example sample_time : Format_RFC3339 (now sample_env) = "2026-10-31T14:26:29Z".
Proof. reflexivity. Qed.

Example sample_split : go_SplitHostPort "203.0.113.9:51234" = Some ("203.0.113.9", "51234").
Proof. reflexivity. Qed.

Example sample_content_length :
  Header (ServeHTTP go_Marshal go_SplitHostPort sample_env sample_request).1
    !! "Content-Length" = Some ["626"].
Proof. vm_compute. reflexivity. Qed.

Lemma ServeHTTP_forwards_rewritten_request_witness :
  ∃ req',
    ServeHTTP go_Marshal go_SplitHostPort sample_env sample_request
    = (req', [next_ServeHTTP req']) ∧
    Method req' = "POST" ∧
    RequestURI req' = "/2015-03-31/functions/function/invocations" ∧
    Body req' = encode (build_event go_SplitHostPort sample_env sample_request).
Proof.
  destruct (ServeHTTP_forwards_rewritten_request go_Marshal go_SplitHostPort
              sample_env sample_request _ eq_refl)
    as (req' & H1 & H2 & H3 & _ & _ & _ & _ & _ & _ & H4).
  exists req'. repeat split; assumption.
Defined.

Lemma routeKey_from_original_request_witness :
  field ["routeKey"] (build_event go_SplitHostPort sample_env sample_request)
  = Some (VString "GET /orders/7") ∧
  Method (ServeHTTP go_Marshal go_SplitHostPort sample_env sample_request).1 = "POST".
Proof.
  destruct (routeKey_from_original_request go_Marshal go_SplitHostPort
              sample_env sample_request) as (H1 & _ & _ & _ & H5).
  split; [exact H1|]. exact (proj1 (H5 _ eq_refl)).
Defined.

Lemma ServeHTTP_fails_iff_marshal_fails_witness :
  rw_WriteHeader 500
    ∈ (ServeHTTP failing_Marshal go_SplitHostPort sample_env sample_request).2 ∧
  ∃ q, next_ServeHTTP q
         ∈ (ServeHTTP go_Marshal go_SplitHostPort sample_env sample_request).2.
Proof.
  split.
  - apply (proj1 (ServeHTTP_fails_iff_marshal_fails failing_Marshal
                    go_SplitHostPort sample_env sample_request)).
    eexists. reflexivity.
  - apply (proj1 (proj2 (ServeHTTP_fails_iff_marshal_fails go_Marshal
                           go_SplitHostPort sample_env sample_request))).
    eexists. reflexivity.
Defined.

Lemma timestamp_consistent_witness :
  ∃ timeStr timeEpoch,
    field ["requestContext"; "time"]
      (build_event go_SplitHostPort sample_env sample_request)
    = Some (VString timeStr) ∧
    field ["requestContext"; "timeEpoch"]
      (build_event go_SplitHostPort sample_env sample_request)
    = Some (VInt timeEpoch) ∧
    rfc3339_unix timeStr = Some (timeEpoch / 1000).
Proof.
  destruct (timestamp_consistent go_SplitHostPort sample_env sample_request)
    as (timeStr & timeEpoch & H1 & H2 & _ & _ & _ & _ & _ & H3).
  - vm_compute. discriminate.
  - vm_compute. split; [discriminate|reflexivity].
  - vm_compute. reflexivity.
  - exists timeStr, timeEpoch. repeat split; assumption.
Defined.

(** Outside that range the two fields disagree.  In the last millisecond
    before the epoch [time] denotes the Unix second -1 while [timeEpoch]
    is 0; one second past the last instant that fits [int64] the
    nanosecond count wraps around, and [timeEpoch] is negative while
    [time] denotes the second 9223372037. *)
Lemma timestamp_inconsistent_outside_range :
  let before := build_event go_SplitHostPort env_before_epoch sample_request in
  let after := build_event go_SplitHostPort env_after_2262 sample_request in
  (field ["requestContext"; "time"] before = Some (VString "1969-12-31T23:59:59Z") ∧
   rfc3339_unix "1969-12-31T23:59:59Z" = Some (-1) ∧
   field ["requestContext"; "timeEpoch"] before = Some (VInt 0) ∧
   0 / 1000 ≠ -1) ∧
  (field ["requestContext"; "time"] after = Some (VString "2262-04-11T23:47:17Z") ∧
   rfc3339_unix "2262-04-11T23:47:17Z" = Some 9223372037 ∧
   field ["requestContext"; "timeEpoch"] after = Some (VInt (-9223372036709)) ∧
   -9223372036709 / 1000 ≠ 9223372037).
Proof.
  cbv zeta. repeat split; try (vm_compute; reflexivity); vm_compute; discriminate.
Qed.

Lemma ServeHTTP_frame_witness :
  Host (ServeHTTP go_Marshal go_SplitHostPort sample_env sample_request).1
  = "api.example.com:8443" ∧
  Path (Url (ServeHTTP go_Marshal go_SplitHostPort sample_env sample_request).1)
  = "/orders/7".
Proof.
  destruct (ServeHTTP_frame go_Marshal go_SplitHostPort sample_env
              sample_request _ eq_refl) as (_ & H1 & _ & H2 & _).
  split; [exact H2 | exact H1].
Defined.

Lemma identitySource_first_value_witness :
  field ["identitySource"] (build_event go_SplitHostPort sample_env sample_request)
  = Some (VStrings ["sess-42"]).
Proof.
  exact (proj1 (identitySource_first_value go_SplitHostPort sample_env
                  sample_request "sess-42" ["other"] eq_refl)).
Defined.

(** A header name with an empty list of values is in the [headers] field,
    mapped to the empty string. *)
Lemma headers_empty_value_list_kept :
  let req := sample_with_header {["X-Empty" := []]} in
  Header req !! "X-Empty" = Some [] ∧
  ∃ m, field ["headers"] (build_event go_SplitHostPort sample_env req)
       = Some (VStringMap m) ∧
       m !! "X-Empty" = Some "" ∧
       m !! "X-Empty" ≠ None.
Proof.
  cbv zeta.
  assert (headersMap_of {["X-Empty" := []]} !! "X-Empty" = Some "") as H
    by (vm_compute; reflexivity).
  split; [reflexivity|].
  exists (headersMap_of {["X-Empty" := []]}).
  split; [reflexivity|]. split; [exact H|]. rewrite H. discriminate.
Qed.

(** An [x-session-id] header that is present with an empty value gives an
    empty [identitySource], not the list of that value. *)
Lemma identitySource_empty_session_value :
  let req := sample_with_header {["X-Session-Id" := [""]]} in
  Header req !! "X-Session-Id" = Some [""] ∧
  field ["identitySource"] (build_event go_SplitHostPort sample_env req)
  = Some (VStrings []) ∧
  field ["identitySource"] (build_event go_SplitHostPort sample_env req)
  ≠ Some (VStrings [""]).
Proof.
  cbv zeta. split; [reflexivity|].
  assert (field ["identitySource"]
            (build_event go_SplitHostPort sample_env
               (sample_with_header {["X-Session-Id" := [""]]}))
          = Some (VStrings [])) as H by (vm_compute; reflexivity).
  split; [exact H|]. rewrite H. discriminate.
Qed.

(** * Further properties of the code *)

(** ** The rest of the event *)

Lemma string_app_assoc (a b c : string) : (a ++ b) ++ c = a ++ b ++ c.
Proof.
  induction a as [|x a IH]; [reflexivity|].
  change (String x ((a ++ b) ++ c) = String x (a ++ b ++ c)). by rewrite IH.
Qed.

Section Event.

Variable json_Marshal : value -> string + string.
Variable net_SplitHostPort : string -> option (string * string).

(** The body, the content length, the transfer encoding and the request
    target of the request that arrives are never read: the event and the
    effects are the same whatever they are, and so is the forwarded
    request. *)
Theorem original_body_ignored env req body contentLength transferEncoding requestURI :
  let req2 := set_Body body (set_ContentLength contentLength
                (set_TransferEncoding transferEncoding
                   (set_RequestURI requestURI req))) in
  build_event net_SplitHostPort env req2 = build_event net_SplitHostPort env req ∧
  match json_Marshal (build_event net_SplitHostPort env req) with
  | inl _ =>
      ServeHTTP json_Marshal net_SplitHostPort env req2
      = ServeHTTP json_Marshal net_SplitHostPort env req
  | inr _ =>
      (ServeHTTP json_Marshal net_SplitHostPort env req2).2
      = (ServeHTTP json_Marshal net_SplitHostPort env req).2
  end.
Proof.
  cbv zeta.
  assert (build_event net_SplitHostPort env
            (set_Body body (set_ContentLength contentLength
               (set_TransferEncoding transferEncoding
                  (set_RequestURI requestURI req))))
          = build_event net_SplitHostPort env req) as Hev by reflexivity.
  split; [exact Hev|]. unfold ServeHTTP. rewrite Hev.
  destruct (json_Marshal (build_event net_SplitHostPort env req)); reflexivity.
Qed.

(** Rewriting a request that was already rewritten leaves no trace of the
    first rewriting. *)
Theorem rewrite_request_twice jsonData1 jsonData2 req :
  rewrite_request jsonData2 (rewrite_request jsonData1 req)
  = rewrite_request jsonData2 req.
Proof.
  rewrite !rewrite_request_eq. cbn [Url Proto Header Host RemoteAddr]. f_equal.
  apply map_eq. intros k.
  destruct (decide (k = "Content-Length")) as [->|H1];
    [by rewrite !lookup_insert_eq|].
  rewrite !(lookup_insert_ne _ "Content-Length") by done.
  destruct (decide (k = "Content-Type")) as [->|H2];
    [by rewrite !lookup_insert_eq|].
  by rewrite !lookup_insert_ne.
Qed.

(** An event built from a request that was already rewritten describes
    the rewritten request: method [POST], the content type and the
    content length of the first rewriting among the headers; the path,
    the query and the domain are those of the original. *)
Theorem event_of_rewritten_request env req jsonData :
  let ev := build_event net_SplitHostPort env (rewrite_request jsonData req) in
  field ["routeKey"] ev = Some (VString ("POST " ++ Path (Url req))) ∧
  field ["requestContext"; "http"; "method"] ev = Some (VString "POST") ∧
  field ["rawPath"] ev = Some (VString (Path (Url req))) ∧
  field ["rawQueryString"] ev = Some (VString (RawQuery (Url req))) ∧
  field ["requestContext"; "domainName"] ev
  = Some (VString (domainName_of (Host req))) ∧
  ∃ m, field ["headers"] ev = Some (VStringMap m) ∧
       m !! "Content-Type" = Some "application/json" ∧
       m !! "Content-Length" = Some (Sprintf_d (Z.of_nat (String.length jsonData))) ∧
       (∀ name, name ≠ "Content-Type" → name ≠ "Content-Length" →
                m !! name = (λ values, strings_Join values ",") <$> Header req !! name).
Proof.
  cbv zeta. repeat split; try reflexivity.
  exists (headersMap_of (Header (rewrite_request jsonData req))).
  split; [reflexivity|]. rewrite rewrite_request_eq. cbn [Header].
  split; [|split].
  - by rewrite headersMap_of_lookup, lookup_insert_ne, lookup_insert_eq.
  - by rewrite headersMap_of_lookup, lookup_insert_eq.
  - intros name H1 H2. by rewrite headersMap_of_lookup, !lookup_insert_ne.
Qed.

(** [identitySource] never holds more than one value, never the empty
    string, and nothing but what [Get("x-session-id")] returns. *)
Theorem identitySource_at_most_one env req :
  ∃ l, field ["identitySource"] (build_event net_SplitHostPort env req)
       = Some (VStrings l) ∧
       (length l <= 1)%nat ∧
       ("" ∉ l) ∧
       (∀ v, v ∈ l → v = Header_Get (Header req) "x-session-id").
Proof.
  exists (identitySrc_of (Header req)). split; [reflexivity|].
  unfold identitySrc_of.
  destruct (String.eqb_spec (Header_Get (Header req) "x-session-id") "") as [E|E];
    cbn [negb app length].
  - split; [lia|]. split; [apply not_elem_of_nil|]. intros v H.
    by apply elem_of_nil in H.
  - split; [lia|]. split.
    + intros H. apply list_elem_of_singleton in H. congruence.
    + intros v H. by apply list_elem_of_singleton in H.
Qed.

(** Two adjacent values of a header and the single value made of them and
    a comma give the same [headers] field: the fold does not keep the
    boundaries between values. *)
Theorem headers_fold_merges_values env req name x y rest :
  field ["headers"]
    (build_event net_SplitHostPort env
       (set_Header (<[name := x :: y :: rest]> (Header req)) req))
  = field ["headers"]
      (build_event net_SplitHostPort env
         (set_Header (<[name := (x ++ "," ++ y) :: rest]> (Header req)) req)).
Proof.
  assert (∀ r, field ["headers"] (build_event net_SplitHostPort env r)
               = Some (VStringMap (headersMap_of (Header r)))) as Hh by reflexivity.
  rewrite !Hh. cbn [Header set_Header]. do 2 f_equal.
  apply map_eq. intros k. rewrite !headersMap_of_lookup.
  destruct (decide (name = k)) as [->|Hne].
  - rewrite !lookup_insert_eq. cbn [fmap option_fmap option_map]. f_equal.
    destruct rest as [|z rest]; cbn [strings_Join].
    + reflexivity.
    + rewrite string_app_assoc. reflexivity.
  - by rewrite !lookup_insert_ne.
Qed.

End Event.

(** ** More on the host split *)

Lemma cut_at_prefix c s : String.prefix (cut_at c s) s = true.
Proof.
  induction s as [|a s IH]; [reflexivity|].
  cbn [cut_at]. destruct (Ascii.eqb a c); [reflexivity|].
  cbn [String.prefix]. by destruct (ascii_dec a a).
Qed.

Lemma cut_at_free c s : contains c (cut_at c s) = false.
Proof.
  induction s as [|a s IH]; [reflexivity|].
  cbn [cut_at]. destruct (Ascii.eqb a c) eqn:E; [reflexivity|].
  cbn [contains]. by rewrite E, IH.
Qed.

Lemma cut_at_keeps_free c d s : contains d s = false → contains d (cut_at c s) = false.
Proof.
  induction s as [|a s IH]; [done|].
  cbn [cut_at contains]. intros [Ha Hs]%orb_false_elim.
  destruct (Ascii.eqb a c); [reflexivity|].
  cbn [contains]. by rewrite Ha, IH.
Qed.

Lemma domainPrefix_of_cut_at dn : domainPrefix_of dn = cut_at "." dn.
Proof.
  rewrite domainPrefix_of_cut. destruct (contains "." dn) eqn:E; [done|].
  by rewrite cut_at_absent.
Qed.

(** The domain name is a prefix of the host without a colon, and the
    domain prefix is a prefix of the domain name with neither a dot nor a
    colon. *)
Theorem domain_parts_are_prefixes host :
  let domainName := domainName_of host in
  let domainPrefix := domainPrefix_of domainName in
  String.prefix domainName host = true ∧
  contains ":" domainName = false ∧
  String.prefix domainPrefix domainName = true ∧
  contains "." domainPrefix = false ∧
  contains ":" domainPrefix = false.
Proof.
  cbv zeta. rewrite domainPrefix_of_cut_at, domainName_of_cut.
  repeat split.
  - apply cut_at_prefix.
  - apply cut_at_free.
  - apply cut_at_prefix.
  - apply cut_at_free.
  - apply cut_at_keeps_free, cut_at_free.
Qed.

(** Splitting again changes nothing: a domain name is its own domain
    name, a domain prefix its own domain prefix and its own domain
    name. *)
Theorem domain_split_idempotent host :
  let domainName := domainName_of host in
  let domainPrefix := domainPrefix_of domainName in
  domainName_of domainName = domainName ∧
  domainPrefix_of domainPrefix = domainPrefix ∧
  domainName_of domainPrefix = domainPrefix.
Proof.
  cbv zeta. rewrite !domainPrefix_of_cut_at, !domainName_of_cut.
  repeat split; apply cut_at_absent.
  - apply cut_at_free.
  - apply cut_at_free.
  - apply cut_at_keeps_free, cut_at_free.
Qed.

Lemma cut_at_empty c s :
  cut_at c s = "" ↔ s = "" ∨ String.prefix (String c "") s = true.
Proof.
  rewrite prefix_byte. destruct s as [|a s]; cbn [cut_at].
  - split; [by left|done].
  - destruct (Ascii.eqb a c); split; try done; [by right|].
    intros [H|H]; discriminate H.
Qed.

(** The domain name is empty exactly for an empty host and for a host
    that starts with a colon; the domain prefix is empty exactly for an
    empty domain name and for one that starts with a dot. *)
Theorem domain_parts_empty host :
  let domainName := domainName_of host in
  (domainName = "" ↔ host = "" ∨ String.prefix ":" host = true) ∧
  (domainPrefix_of domainName = ""
   ↔ domainName = "" ∨ String.prefix "." domainName = true).
Proof.
  cbv zeta. rewrite domainPrefix_of_cut_at, domainName_of_cut.
  split; apply cut_at_empty.
Qed.

(** *** [strings.Split] at a byte *)

Lemma slice_from_cut c s :
  contains c s = true →
  s = cut_at c s ++ String c (slice_from s (len (cut_at c s) + 1)).
Proof.
  unfold slice_from, len.
  induction s as [|a s IH]; [done|].
  cbn [contains cut_at]. destruct (Ascii.eqb_spec a c) as [->|Hne].
  - intros _. reflexivity.
  - cbn [orb]. intros H. cbn [String.length].
    replace (Z.to_nat (Z.of_nat (S (String.length (cut_at c s))) + 1))
      with (S (Z.to_nat (Z.of_nat (String.length (cut_at c s)) + 1))) by lia.
    cbn [string_drop].
    change (String a s = String a (cut_at c s ++ String c
      (string_drop (Z.to_nat (Z.of_nat (String.length (cut_at c s)) + 1)) s))).
    f_equal. by apply IH.
Qed.

Lemma string_length_app (a b : string) :
  String.length (a ++ b) = (String.length a + String.length b)%nat.
Proof.
  induction a as [|x a IH]; [reflexivity|].
  change (S (String.length (a ++ b)) = S (String.length a + String.length b)).
  by rewrite IH.
Qed.

Lemma slice_from_shorter c s :
  contains c s = true →
  (String.length (slice_from s (len (cut_at c s) + 1)) < String.length s)%nat.
Proof.
  intros H. pose proof (f_equal String.length (slice_from_cut c s H)) as E.
  rewrite string_length_app in E. cbn [String.length] in E. lia.
Qed.

Lemma genSplit_spec c fuel s :
  (String.length s <= fuel)%nat →
  strings_Join (genSplit fuel s (String c "")) (String c "") = s ∧
  Forall (λ part, contains c part = false) (genSplit fuel s (String c "")) ∧
  (0 < length (genSplit fuel s (String c "")))%nat.
Proof.
  revert s. induction fuel as [|fuel IH]; intros s Hlen.
  - destruct s; [|cbn in Hlen; lia]. cbn. repeat split; [|lia].
    by apply Forall_singleton.
  - cbn [genSplit]. destruct (contains c s) eqn:Hc.
    + rewrite (Index_byte_present _ _ Hc).
      destruct (Z.ltb_spec (len (cut_at c s)) 0) as [E|_]; [unfold len in E; lia|].
      rewrite (slice_to_cut _ _ Hc). change (len (String c "")) with 1.
      pose proof (slice_from_shorter c s Hc) as Hs.
      destruct (IH (slice_from s (len (cut_at c s) + 1))) as (Hj & Hf & Hn); [lia|].
      split; [|split].
      * destruct (genSplit fuel _ _) as [|p ps] eqn:E; [cbn in Hn; lia|].
        change (strings_Join (cut_at c s :: p :: ps) (String c ""))
          with (cut_at c s ++ String c "" ++ strings_Join (p :: ps) (String c "")).
        rewrite Hj. symmetry. by apply slice_from_cut.
      * apply Forall_cons. split; [apply cut_at_free|exact Hf].
      * cbn. lia.
    + rewrite (Index_byte_absent _ _ Hc). cbn. repeat split; [|lia].
      by apply Forall_singleton.
Qed.

(** [strings.Split] at a byte cuts at every instance of it: no part
    holds the byte, there is at least one part, and the parts joined
    with the byte give the string back. *)
Theorem Split_Join_inverse c s :
  let parts := strings_Split s (String c "") in
  strings_Join parts (String c "") = s ∧
  Forall (λ part, contains c part = false) parts ∧
  (0 < length parts)%nat.
Proof. cbv zeta. unfold strings_Split. by apply genSplit_spec. Qed.

(** ** More on the request identifier *)

Lemma lor_above y k c :
  0 <= k → 0 <= y < 2 ^ k → Z.lor y (c * 2 ^ k) = y + c * 2 ^ k.
Proof.
  intros Hk Hy. symmetry. apply Z.add_nocarry_lor.
  apply Z.bits_inj'. intros n Hn. rewrite Z.land_spec, Z.bits_0.
  destruct (Z.lt_ge_cases n k) as [Hlt|Hge].
  - by rewrite Z.mul_pow2_bits_low, andb_false_r.
  - rewrite <- (Z.mod_small y (2 ^ k)) by lia.
    by rewrite Z.mod_pow2_bits_high by lia.
Qed.

Lemma version_byte x : Z.lor (Z.land x 0x0F) 0x40 = 64 + x mod 16.
Proof.
  change 0x0F with (Z.ones 4). rewrite Z.land_ones by lia.
  change 0x40 with (4 * 2 ^ 4).
  rewrite lor_above; [change (2 ^ 4) with 16; lia|lia|].
  apply Z.mod_pos_bound. lia.
Qed.

Lemma variant_byte x : Z.lor (Z.land x 0x3F) 0x80 = 128 + x mod 64.
Proof.
  change 0x3F with (Z.ones 6). rewrite Z.land_ones by lia.
  change 0x80 with (2 * 2 ^ 6).
  rewrite lor_above; [change (2 ^ 6) with 64; lia|lia|].
  apply Z.mod_pos_bound. lia.
Qed.

Lemma uuid_bytes_lookup entropy t (i : nat) :
  uuid_bytes entropy t !! i
  = (λ x, if decide (i = 6%nat) then 64 + x mod 16
          else if decide (i = 8%nat) then 128 + x mod 64
          else x)
    <$> match rand_Read entropy with
        | Some b => b
        | None => fallback_bytes t
        end !! i.
Proof.
  unfold uuid_bytes.
  set (b := match rand_Read entropy with Some b => b | None => fallback_bytes t end).
  assert (length b = 16%nat) as Hlen.
  { subst b. destruct (rand_Read entropy) as [b|] eqn:Hr.
    - by apply rand_Read_length in Hr.
    - apply fallback_bytes_length. }
  destruct (sixteen_bytes b Hlen)
    as (b0 & b1 & b2 & b3 & b4 & b5 & b6 & b7 & b8 & b9 & b10 & b11 & b12
        & b13 & b14 & b15 & ->).
  cbn [lookup_total list_lookup_total insert list_insert].
  rewrite version_byte, variant_byte.
  do 16 (destruct i as [|i]; [reflexivity|]). reflexivity.
Qed.

(** When the secure source delivers sixteen bytes the identifier holds
    them unchanged, except for the high nibble of byte 6 and the top two
    bits of byte 8; the clock reading of the fallback plays no part. *)
Theorem uuid_keeps_random_bits entropy t :
  (16 <= length entropy)%nat →
  let b := uuid_bytes entropy t in
  (∀ i : nat, (i < 16)%nat → i ≠ 6%nat → i ≠ 8%nat →
     b !! i = Z_of_byte <$> entropy !! i) ∧
  b !! 6%nat = (λ e, 64 + Z_of_byte e mod 16) <$> entropy !! 6%nat ∧
  b !! 8%nat = (λ e, 128 + Z_of_byte e mod 64) <$> entropy !! 8%nat ∧
  (∀ t', uuid_bytes entropy t' = b).
Proof.
  intros Hlen. cbv zeta.
  assert (rand_Read entropy = Some (Z_of_byte <$> take 16 entropy)) as Hr.
  { unfold rand_Read. by destruct (Nat.leb_spec 16 (length entropy)); [|lia]. }
  assert (∀ i, uuid_bytes entropy t !! i
               = (λ x, if decide (i = 6%nat) then 64 + x mod 16
                       else if decide (i = 8%nat) then 128 + x mod 64 else x)
                 <$> (Z_of_byte <$> take 16 entropy) !! i) as Hl.
  { intros i. by rewrite uuid_bytes_lookup, Hr. }
  split; [|split; [|split]].
  - intros i Hi H6 H8. rewrite Hl, list_lookup_fmap, lookup_take_lt by lia.
    destruct (entropy !! i); cbn; [|done].
    by rewrite !decide_False.
  - rewrite Hl, list_lookup_fmap, lookup_take_lt by lia.
    by destruct (entropy !! 6%nat).
  - rewrite Hl, list_lookup_fmap, lookup_take_lt by lia.
    by destruct (entropy !! 8%nat).
  - intros t'. unfold uuid_bytes. by rewrite Hr.
Qed.

Lemma rand_Read_short entropy : (length entropy < 16)%nat → rand_Read entropy = None.
Proof. intros H. unfold rand_Read. by destruct (Nat.leb_spec 16 (length entropy)); [lia|]. Qed.

Lemma shiftr_int64_high t k :
  - 2 ^ 63 <= t < 2 ^ 63 → 63 <= k →
  Z.shiftr t k = if 0 <=? t then 0 else -1.
Proof.
  intros Ht Hk. rewrite Z.shiftr_div_pow2 by lia.
  assert (2 ^ 63 <= 2 ^ k) as Hp by (apply Z.pow_le_mono_r; lia).
  destruct (Z.leb_spec 0 t).
  - apply Z.div_small. lia.
  - symmetry. apply (Z.div_unique t (2 ^ k) (-1) (t + 2 ^ k)); lia.
Qed.

(** When the secure source fails, the second half of the identifier is
    fixed by the sign of the clock reading alone: an [int64] shifted by 64
    bits or more keeps only its sign. *)
Theorem uuid_fallback_second_half entropy t :
  (length entropy < 16)%nat →
  - 2 ^ 63 <= t < 2 ^ 63 →
  string_drop 18 (generateUUID entropy t)
  = if 0 <=? t then "-8000-000000000000" else "-bfff-ffffffffffff".
Proof.
  intros Hlen Ht. unfold generateUUID, uuid_bytes.
  rewrite (rand_Read_short _ Hlen).
  cbv [fallback_bytes seq fmap list_fmap].
  repeat match goal with
         | |- context [Z.of_nat ?n * 8] =>
             let v := eval vm_compute in (Z.of_nat n * 8) in
             change (Z.of_nat n * 8) with v
         end.
  rewrite (shiftr_int64_high t 64), (shiftr_int64_high t 72),
    (shiftr_int64_high t 80), (shiftr_int64_high t 88),
    (shiftr_int64_high t 96), (shiftr_int64_high t 104),
    (shiftr_int64_high t 112), (shiftr_int64_high t 120) by lia.
  destruct (0 <=? t);
    cbv -[hexdigit Z.shiftr Z.land Z.lor to_uint8]; reflexivity.
Qed.

Lemma hexval_hexdigit n : 0 <= n < 16 → hexval (hexdigit n) = Some n.
Proof.
  intros Hn.
  assert (n = 0 ∨ n = 1 ∨ n = 2 ∨ n = 3 ∨ n = 4 ∨ n = 5 ∨ n = 6 ∨ n = 7 ∨
          n = 8 ∨ n = 9 ∨ n = 10 ∨ n = 11 ∨ n = 12 ∨ n = 13 ∨ n = 14 ∨ n = 15)
    as H by lia.
  repeat (destruct H as [->|H]; [reflexivity|]). by subst.
Qed.

Lemma nibbles_of_byte c :
  is_uint8 c →
  hexval (hexdigit (Z.shiftr c 4)) = Some (Z.shiftr c 4) ∧
  hexval (hexdigit (Z.land c 15)) = Some (Z.land c 15) ∧
  16 * Z.shiftr c 4 + Z.land c 15 = c.
Proof.
  intros Hc. split; [|split].
  - by apply hexval_hexdigit, high_nibble_range.
  - apply hexval_hexdigit, low_nibble_range.
  - rewrite Z.shiftr_div_pow2 by lia. change 15 with (Z.ones 4).
    rewrite Z.land_ones by lia. change (2 ^ 4) with 16.
    pose proof (Z.div_mod c 16). lia.
Qed.

(** The text of an identifier denotes its sixteen bytes: reading the hex
    groups back gives the bytes the identifier was printed from. *)
Theorem uuid_decode_generateUUID entropy t :
  uuid_decode (generateUUID entropy t) = Some (uuid_bytes entropy t).
Proof.
  unfold generateUUID.
  pose proof (uuid_bytes_uint8 entropy t) as Hu.
  destruct (sixteen_bytes _ (uuid_bytes_length entropy t))
    as (b0 & b1 & b2 & b3 & b4 & b5 & b6 & b7 & b8 & b9 & b10 & b11 & b12
        & b13 & b14 & b15 & Hb).
  rewrite Hb in *. clear Hb.
  repeat match goal with
         | H : Forall _ (_ :: _) |- _ =>
             apply Forall_cons in H;
             let Hc := fresh "Hc" in
             destruct H as [Hc H];
             pose proof (hex_pair_ok _ Hc) as [? ?];
             pose proof (nibbles_of_byte _ Hc) as (? & ? & ?);
             clear Hc
         end.
  cbv -[hexdigit Z.shiftr Z.land is_hex hexval Z.add Z.mul].
  repeat match goal with H : is_hex _ = true |- _ => rewrite H; clear H end.
  repeat match goal with H : hexval _ = Some _ |- _ => rewrite H; clear H end.
  repeat match goal with H : 16 * _ + _ = _ |- _ => rewrite H; clear H end.
  reflexivity.
Qed.

Lemma small_bits_above k m : 0 <= k < 16 → 4 <= m → Z.testbit k m = false.
Proof.
  intros Hk Hm. rewrite <- (Z.mod_small k (2 ^ 4)) by (change (2 ^ 4) with 16; lia).
  apply Z.mod_pow2_bits_high. lia.
Qed.

(** Bits 52 to 55 of the clock reading do not reach a window of [w] bits
    at offset [j] that ends at bit 52 or starts at bit 56. *)
Lemma window_ignores_bits_52_55 t k j w :
  0 <= k < 16 → 0 <= j → 0 <= w → j + w <= 52 ∨ 56 <= j →
  Z.shiftr (Z.lxor t (k * 2 ^ 52)) j mod 2 ^ w = Z.shiftr t j mod 2 ^ w.
Proof.
  intros Hk Hj Hw Hjw. apply Z.bits_inj'. intros n Hn.
  destruct (Z.lt_ge_cases n w) as [Hlt|Hge].
  - rewrite !Z.mod_pow2_bits_low by lia.
    rewrite !Z.shiftr_spec, Z.lxor_spec by lia.
    rewrite Z.mul_pow2_bits by lia.
    destruct (Z.lt_ge_cases (n + j) 52) as [Hlow|Hhigh].
    + rewrite (Z.testbit_neg_r k) by lia. apply xorb_false_r.
    + rewrite (small_bits_above k) by lia. apply xorb_false_r.
  - by rewrite !Z.mod_pow2_bits_high by lia.
Qed.

Lemma fallback_bytes_lookup t (i : nat) :
  (i < 16)%nat →
  fallback_bytes t !! i = Some (Z.shiftr t (Z.of_nat i * 8) mod 256).
Proof.
  intros Hi. unfold fallback_bytes, to_uint8.
  rewrite list_lookup_fmap, lookup_seq_lt by lia. reflexivity.
Qed.

(** When the secure source fails, the identifier does not depend on bits
    52 to 55 of the clock reading, which the version nibble overwrites:
    readings that differ in those bits only get the same identifier. *)
Theorem uuid_fallback_ignores_bits_52_55 entropy t k :
  (length entropy < 16)%nat →
  0 <= k < 16 →
  generateUUID entropy (Z.lxor t (k * 2 ^ 52)) = generateUUID entropy t.
Proof.
  intros Hlen Hk. unfold generateUUID.
  replace (uuid_bytes entropy (Z.lxor t (k * 2 ^ 52))) with (uuid_bytes entropy t);
    [reflexivity|].
  apply list_eq. intros i. rewrite !uuid_bytes_lookup, (rand_Read_short _ Hlen).
  destruct (Nat.lt_ge_cases i 16) as [Hi|Hi].
  - rewrite !fallback_bytes_lookup by lia. cbn [fmap option_fmap option_map].
    f_equal. change 256 with (2 ^ 8).
    destruct (decide (i = 6%nat)) as [->|H6].
    + f_equal. change (Z.of_nat 6 * 8) with 48. change 16 with (2 ^ 4).
      rewrite <- !Z.land_ones by lia.
      rewrite <- !Z.land_assoc. change (Z.land (Z.ones 8) (Z.ones 4)) with (Z.ones 4).
      rewrite !Z.land_ones by lia.
      symmetry. apply window_ignores_bits_52_55; lia.
    + assert (Z.shiftr (Z.lxor t (k * 2 ^ 52)) (Z.of_nat i * 8) mod 2 ^ 8
              = Z.shiftr t (Z.of_nat i * 8) mod 2 ^ 8) as ->; [|done].
      apply window_ignores_bits_52_55; lia.
  - by rewrite !(lookup_ge_None_2 (fallback_bytes _)) by (rewrite fallback_bytes_length; lia).
Qed.

(** ** More on the timestamp *)

Lemma quot_million n :
  Z.abs (n - n ÷ 1000000 * 1000000) < 1000000 ∧
  Z.abs (n ÷ 1000000 * 1000000) <= Z.abs n ∧
  (- 1000000 < n < 0 → n ÷ 1000000 = 0).
Proof. repeat split; intros; Z.quot_rem_to_equations; lia. Qed.

Section Timestamp.

Variable net_SplitHostPort : string -> option (string * string).

(** For every instant whose nanosecond count [n] fits [int64],
    [timeEpoch] is [n] in milliseconds rounded toward zero: it is within
    one millisecond of the instant and never farther from the epoch.  In
    the last millisecond before the epoch it is therefore 0 while [time]
    still reads 1969. *)
Theorem timeEpoch_rounds_toward_zero env req :
  let n := unixSec (now env) * 1000000000 + nsec (now env) in
  - 2 ^ 63 <= n < 2 ^ 63 →
  0 <= nsec (now env) < 1000000000 →
  ∃ timeEpoch,
    field ["requestContext"; "timeEpoch"] (build_event net_SplitHostPort env req)
    = Some (VInt timeEpoch) ∧
    Z.abs (n - timeEpoch * 1000000) < 1000000 ∧
    Z.abs (timeEpoch * 1000000) <= Z.abs n ∧
    (- 1000000 < n < 0 →
     timeEpoch = 0 ∧
     field ["requestContext"; "time"] (build_event net_SplitHostPort env req)
     = Some (VString "1969-12-31T23:59:59Z")).
Proof.
  cbv zeta. intros Hfit Hnsec.
  set (t := now env) in *.
  set (n := unixSec t * 1000000000 + nsec t) in *.
  assert (Time_UnixNano t = n) as Hn.
  { unfold Time_UnixNano, to_int64. fold n. rewrite Z.mod_small; lia. }
  exists (Z.quot n 1000000).
  split; [cbn [field]; unfold build_event; fold t; rewrite Hn; reflexivity|].
  destruct (quot_million n) as (H1 & H2 & H3).
  split; [exact H1|]. split; [exact H2|]. intros Hlast.
  split; [by apply H3|].
  assert (unixSec t = -1) as Hsec by (subst n; lia).
  cbn [field]. unfold build_event. fold t.
  change (Some (VString (Format_RFC3339 t)) = Some (VString "1969-12-31T23:59:59Z")).
  unfold Format_RFC3339. rewrite Hsec. reflexivity.
Qed.

End Timestamp.

(** ** The further properties on concrete inputs *)

Lemma uuid_keeps_random_bits_witness :
  uuid_bytes (repeat Byte.xa7 16) 0 !! 0%nat = Some 167 ∧
  uuid_bytes (repeat Byte.xa7 16) 0 !! 6%nat = Some 71.
Proof.
  destruct (uuid_keeps_random_bits (repeat Byte.xa7 16) 0) as (H & H6 & _).
  - cbn. lia.
  - split; [rewrite (H 0%nat) by lia | rewrite H6]; reflexivity.
Defined.

Lemma uuid_fallback_second_half_witness :
  string_drop 18 (generateUUID [] 1234567890123456789) = "-8000-000000000000".
Proof.
  apply (uuid_fallback_second_half [] 1234567890123456789).
  - cbn. lia.
  - lia.
Defined.

Lemma uuid_fallback_ignores_bits_52_55_witness :
  generateUUID [] (Z.lxor 1234567890123456789 (5 * 2 ^ 52))
  = generateUUID [] 1234567890123456789.
Proof.
  apply (uuid_fallback_ignores_bits_52_55 [] 1234567890123456789 5).
  - cbn. lia.
  - lia.
Defined.

Lemma timeEpoch_rounds_toward_zero_witness :
  field ["requestContext"; "timeEpoch"]
    (build_event go_SplitHostPort env_before_epoch sample_request)
  = Some (VInt 0) ∧
  field ["requestContext"; "time"]
    (build_event go_SplitHostPort env_before_epoch sample_request)
  = Some (VString "1969-12-31T23:59:59Z").
Proof.
  destruct (timeEpoch_rounds_toward_zero go_SplitHostPort env_before_epoch
              sample_request) as (e & He & _ & _ & H).
  - vm_compute. split; [discriminate|reflexivity].
  - vm_compute. split; [discriminate|reflexivity].
  - destruct H as [-> Ht]; [vm_compute; split; reflexivity|].
    split; [exact He|exact Ht].
Defined.
